(** * pyEditorJS: rendering of Editor.js blocks to HTML

    A shallow embedding of [pyeditorjs/blocks.py].  Every block class of the
    source is a module below, with its properties and its [html] method under
    the source's names.  JSON data are values of [value]; a Python exception
    is the [Raise] case of [result]. *)

From Stdlib Require Import ZArith String Ascii List Bool Lia.
From Stdlib Require Import Floats.SpecFloat.
From stdpp Require Import base option list gmap strings pretty.

Open Scope string_scope.
Open Scope Z_scope.

(** ** Strings *)

(** The source's HTML templates are full of double quotes.  Here a template is
    written with the apostrophe in their place (the templates of the source
    hold no apostrophe) and [tpl] puts the double quotes back. *)
Definition dquote : ascii := "034"%char.
Definition squote : ascii := "039"%char.

Fixpoint tpl (s : string) : string :=
  match s with
  | EmptyString => EmptyString
  | String c s' => String (if Ascii.eqb c squote then dquote else c) (tpl s')
  end.

(** [s.startswith(p)] *)
Definition startswith (s p : string) : bool := String.prefix p s.

(** [s.endswith(p)] *)
Definition endswith (s p : string) : bool :=
  (String.length p <=? String.length s)%nat
  && String.eqb (substring (String.length s - String.length p) (String.length p) s) p.

(** [p in s] *)
Fixpoint contains (p s : string) : bool :=
  String.prefix p s
  || match s with
     | EmptyString => false
     | String _ s' => contains p s'
     end.

(** [s[:-n]] for a positive [n] *)
Definition drop_last (n : nat) (s : string) : string :=
  substring 0 (String.length s - n) s.

(** [s.replace(old, new)] for a non-empty [old]: the occurrences of [old] are
    replaced from left to right, without overlap.  [skip] counts the
    characters of an occurrence that are still to be dropped. *)
Fixpoint replace_go (old new : string) (skip : nat) (s : string) : string :=
  match s with
  | EmptyString => EmptyString
  | String c s' =>
      match skip with
      | S k => replace_go old new k s'
      | O =>
          if String.prefix old s
          then new +:+ replace_go old new (String.length old - 1) s'
          else String c (replace_go old new 0 s')
      end
  end.

Definition replace (old new s : string) : string := replace_go old new 0 s.

(** ["sep".join(parts)] *)
Definition join (sep : string) (parts : list string) : string :=
  String.concat sep parts.

Definition newline : string := String "010"%char EmptyString.

(** ** JSON values as Python objects *)

#[warnings="-register-all"]
Inductive value :=
| VNone
| VBool (b : bool)
| VInt (n : Z)
| VFloat (f : spec_float)
| VStr (s : string)
| VList (l : list value)
| VDict (m : gmap string value).

Abbreviation dict := (gmap string value).

(** ** Exceptions *)

Inductive exn :=
| EditorJsParseError (msg : string)
| KeyError (key : string)
| AttributeError
| TypeError
| NotImplementedError.

Inductive result (A : Type) :=
| Ok (a : A)
| Raise (e : exn).
Arguments Ok {A} a.
Arguments Raise {A} e.

#[global] Instance result_ret : MRet result := fun _ a => Ok a.
#[global] Instance result_bind : MBind result := fun _ _ f m =>
  match m with
  | Ok a => f a
  | Raise e => Raise e
  end.
#[global] Instance result_fmap : FMap result := fun _ _ f m =>
  match m with
  | Ok a => Ok (f a)
  | Raise e => Raise e
  end.

(** ** What the model takes from outside the repository

    [bleach.clean] is the HTML sanitizer of the bleach library.  [py_repr] is
    [str()] of a float, a list or a dict.  [str_chars] are the characters
    that iterating a str yields and [dict_keys] the keys that iterating a dict
    yields, in insertion order, which a [gmap] does not record. *)
Class PyRuntime := {
  bleach_clean : list string -> list string -> string -> string;
  py_repr : value -> string;
  str_chars : string -> list string;
  dict_keys : dict -> list string
}.

Section Python.
Context `{PyRuntime}.

(** [str(v)], as an f-string formats [{v}] *)
Definition py_str (v : value) : string :=
  match v with
  | VStr s => s
  | VNone => "None"
  | VBool true => "True"
  | VBool false => "False"
  | VInt n => pretty n
  | _ => py_repr v
  end.

(** [bool(v)] *)
Definition truthy (v : value) : bool :=
  match v with
  | VNone => false
  | VBool b => b
  | VInt n => negb (n =? 0)
  | VFloat (S754_zero _) => false
  | VFloat _ => true
  | VStr s => negb (String.eqb s "")
  | VList l => match l with [] => false | _ => true end
  | VDict m => negb (bool_decide (m = ∅))
  end.

(** [v == s] for a str literal [s] *)
Definition py_eq_str (v : value) (s : string) : bool :=
  match v with
  | VStr s' => String.eqb s' s
  | _ => false
  end.

(** [isinstance(v, int)], with the integer: bool is a subclass of int. *)
Definition as_int (v : value) : option Z :=
  match v with
  | VInt n => Some n
  | VBool b => Some (if b then 1 else 0)
  | _ => None
  end.

(** [o.get(k, default)]: only a dict has the method. *)
Definition py_get (o : value) (k : string) (dflt : value) : result value :=
  match o with
  | VDict m => Ok (default dflt (m !! k))
  | _ => Raise AttributeError
  end.

(** [o[k]] for a str key [k] *)
Definition py_getitem (o : value) (k : string) : result value :=
  match o with
  | VDict m =>
      match m !! k with
      | Some v => Ok v
      | None => Raise (KeyError k)
      end
  | _ => Raise TypeError
  end.

(** [for item in o] *)
Definition py_iter (o : value) : result (list value) :=
  match o with
  | VList l => Ok l
  | VStr s => Ok (VStr <$> str_chars s)
  | VDict m => Ok (VStr <$> dict_keys m)
  | _ => Raise TypeError
  end.

(** ** The two sanitizers *)

(** The [tags] and [attributes] that [_sanitize] passes to [bleach.clean] *)
Definition _sanitize_tags : list string :=
  ["b"; "i"; "u"; "a"; "mark"; "code"; "s"; "del"; "br"; "span"].

Definition _sanitize_attributes : list string :=
  ["class"; "data-placeholder"; "href"; "data-title"; "data-text"].

(** [bleach.clean] raises [TypeError] on anything but a str. *)
Definition _sanitize (html : value) : result string :=
  match html with
  | VStr s => Ok (bleach_clean _sanitize_tags _sanitize_attributes s)
  | _ => Raise TypeError
  end.

Definition _clean (html : value) : result string :=
  match html with
  | VStr s => Ok (bleach_clean [] [] (replace "<br>" newline s))
  | _ => Raise AttributeError
  end.

(** The expression [_sanitize(x) if sanitize else x] of the [html] methods *)
Definition sanitize_if (sanitize : bool) (x : value) : result value :=
  if sanitize then VStr <$> _sanitize x else Ok x.

(** The statement [if caption.endswith('<br>'): caption = caption[:-4]]:
    only a str has the method [endswith]. *)
Definition strip_br (caption : string) : string :=
  if endswith caption "<br>" then drop_last 4 caption else caption.

Definition strip_caption (caption : value) : result string :=
  match caption with
  | VStr s => Ok (strip_br s)
  | _ => Raise AttributeError
  end.
End Python.

(** ** The generic block *)

Module EditorJsBlock.
(** [_data] is the raw JSON data of the entire block. *)
Record t := { _data : dict }.

Definition id (self : t) : value := default VNone (_data self !! "id").

Definition type (self : t) : value := default VNone (_data self !! "type").

Definition data (self : t) : value := default (VDict ∅) (_data self !! "data").

Definition tunes (self : t) : value := default (VDict ∅) (_data self !! "tunes").

Definition html (self : t) (sanitize : bool) : result string :=
  Raise NotImplementedError.
End EditorJsBlock.

Import EditorJsBlock.

Module CodeBlock.
Section methods.
Context `{PyRuntime}.

Definition text (self : t) : result value := py_get (data self) "code" VNone.

Definition html (self : t) (sanitize : bool) : result string :=
  text ← text self;
  Ok (tpl "<div class='cdx-block ce-code'><pre>" +:+ py_str text +:+ "</pre></div>").
End methods.
End CodeBlock.

Module HeaderBlock.
Section methods.
Context `{PyRuntime}.

(** [range(1, 7)] *)
Definition VALID_HEADER_LEVEL_RANGE (n : Z) : bool := bool_decide (1 ≤ n < 7).

Definition text (self : t) : result value := py_get (data self) "text" VNone.

Definition level (self : t) : result value :=
  _level ← py_get (data self) "level" (VInt 1);
  match as_int _level with
  | Some n =>
      if VALID_HEADER_LEVEL_RANGE n then Ok _level
      else Raise (EditorJsParseError
                    ("`" +:+ py_str _level +:+ "` is not a valid header level."))
  | None =>
      Raise (EditorJsParseError
               ("`" +:+ py_str _level +:+ "` is not a valid header level."))
  end.

Definition html (self : t) (sanitize : bool) : result string :=
  open ← level self;
  text ← text self;
  text ← sanitize_if sanitize text;
  close ← level self;
  Ok ("<h" +:+ py_str open +:+ tpl " class='cdx-block ce-header'>"
      +:+ py_str text +:+ "</h" +:+ py_str close +:+ ">").
End methods.
End HeaderBlock.

Module ParagraphBlock.
Section methods.
Context `{PyRuntime}.

Definition text (self : t) : result value := py_get (data self) "text" VNone.

Definition html (self : t) (sanitize : bool) : result string :=
  let classes := ["cdx-block"; "ce-paragraph"] in
  tune ← py_get (tunes self) "AlignmentTune" (VDict {[ "alignment" := VStr "left" ]});
  alignment ← py_getitem tune "alignment";
  text ← text self;
  text ← sanitize_if sanitize text;
  Ok (tpl "<p style='text-align: " +:+ py_str alignment +:+ tpl "' class='"
      +:+ join " " classes +:+ tpl "'>" +:+ py_str text +:+ "</p>").
End methods.
End ParagraphBlock.

Module WarningBlock.
Section methods.
Context `{PyRuntime}.

Definition title (self : t) : result value := py_get (data self) "title" VNone.

Definition message (self : t) : result value := py_get (data self) "message" VNone.

Definition html (self : t) (sanitize : bool) : result string :=
  title ← title self;
  title ← sanitize_if sanitize title;
  message ← message self;
  message ← sanitize_if sanitize message;
  let parts :=
    [ tpl "<div class='cdx-block ce-warning'>";
      tpl "  <blockquote class='ce-warning__blockquote'>";
      if truthy title
      then tpl "    <b class='ce-warning__title'>" +:+ py_str title +:+ "</b>"
      else "";
      if truthy message
      then tpl "    <div class='ce-warning__message'>" +:+ py_str message +:+ "</div>"
      else "";
      "  </blockquote>";
      "</div>" ] in
  Ok (join "" parts).
End methods.
End WarningBlock.

Module QuoteBlock.
Section methods.
Context `{PyRuntime}.

Definition text (self : t) : result value := py_get (data self) "text" VNone.

Definition alignment (self : t) : result value := py_get (data self) "alignment" VNone.

Definition caption (self : t) : result value := py_get (data self) "caption" VNone.

Definition html (self : t) (sanitize : bool) : result string :=
  caption0 ← caption self;
  caption0 ← sanitize_if sanitize caption0;
  caption1 ← strip_caption caption0;
  cite ← (if truthy (VStr caption1)
          then inner ← sanitize_if sanitize (VStr caption1);
               Ok (tpl "<cite class='ce-quote__caption'>" +:+ py_str inner +:+ "</cite>")
          else Ok "");
  alignment ← alignment self;
  raw_caption ← caption self;
  text ← text self;
  text ← sanitize_if sanitize text;
  let parts :=
    [ tpl "<div class='cdx-block ce-quote ce-quote-with-align-" +:+ py_str alignment
      +:+ (if truthy raw_caption then " ce-quote-with-caption" else "") +:+ tpl "'>"
      +:+ tpl "      <blockquote class='ce-quote__blockquote'>";
      py_str text;
      cite;
      "      </blockquote>";
      "</div>" ] in
  Ok (join "" parts).
End methods.
End QuoteBlock.

Module ListBlock.
Section methods.
Context `{PyRuntime}.

Definition VALID_STYLES : list string := ["unordered"; "ordered"].

Definition style (self : t) : result value := py_get (data self) "style" VNone.

Definition items (self : t) : result value := py_get (data self) "items" (VList []).

Definition html (self : t) (sanitize : bool) : result string :=
  style ← style self;
  if negb (existsb (py_eq_str style) VALID_STYLES)
  then Raise (EditorJsParseError
                ("`" +:+ py_str style +:+ "` is not a valid list style."))
  else
    items ← items self;
    items ← py_iter items;
    _items ← mapM (fun item =>
                     item ← sanitize_if sanitize item;
                     Ok ("<li>" +:+ py_str item +:+ "</li>")) items;
    let _type := if py_eq_str style "unordered" then "ul" else "ol" in
    let _items_html := join "" _items in
    Ok ("<" +:+ _type +:+ tpl " class='cdx-block cdx-list cdx-list--" +:+ py_str style
        +:+ tpl "'>" +:+ _items_html +:+ "</" +:+ _type +:+ ">").
End methods.
End ListBlock.

Module DelimiterBlock.
Definition html (self : t) (sanitize : bool) : result string :=
  Ok (tpl "<div class='cdx-block ce-delimiter'><hr/></div>").
End DelimiterBlock.

Module RawBlock.
Section methods.
Context `{PyRuntime}.

Definition html (self : t) (sanitize : bool) : result string :=
  html ← py_get (data self) "html" (VStr "");
  Ok (tpl "<div class='cdx-block ce-raw'>" +:+ py_str html +:+ "</div>").
End methods.
End RawBlock.

Module EmbedBlock.
Section methods.
Context `{PyRuntime}.

Definition service (self : t) : result value := py_get (data self) "service" (VStr "").

Definition source (self : t) : result value := py_get (data self) "source" (VStr "").

Definition embed (self : t) : result value := py_get (data self) "embed" (VStr "").

Definition caption (self : t) : result value := py_get (data self) "caption" VNone.

Definition html (self : t) (sanitize : bool) : result string :=
  caption ← caption self;
  caption ← sanitize_if sanitize caption;
  caption ← strip_caption caption;
  service0 ← service self;
  let parts :=
    [ tpl "<div class='cdx-block embed-tool embed-tool-" +:+ py_str service0 +:+ tpl "'>"
      +:+ "<figure>"
      +:+ tpl "<div class='embed-tool__embed'>" ] in
  service1 ← service self;
  parts ←
    (if py_eq_str service1 "youtube"
     then
       embed ← embed self;
       Ok (app parts
           [ tpl "<iframe src='" +:+ py_str embed
             +:+ tpl "' width='100%' style='aspect-ratio: 16/9' "
             +:+ tpl "frameborder='0' allow='accelerometer; autoplay; "
             +:+ tpl "clipboard-write; encrypted-media; gyroscope; picture-in-picture; web-share' "
             +:+ "allowfullscreen></iframe>" ])
     else
       service2 ← service self;
       if py_eq_str service2 "twitter"
       then
         source ← source self;
         Ok (app parts
             [ tpl "<blockquote class='twitter-tweet'>"
               +:+ tpl "<blockquote class='twitter-tweet'><a href='" +:+ py_str source
               +:+ tpl "'></a></blockquote>"
               +:+ tpl "<script async src='https://platform.twitter.com/widgets.js' charset='utf-8'></script>" ])
       else Ok parts);
  let parts :=
    app parts
    [ "</div>"
      +:+ tpl "<figcaption class='embed-tool__caption'>" +:+ caption +:+ "</figcaption>"
      +:+ "</figure>"
      +:+ "</div>" ] in
  Ok (join "" parts).
End methods.
End EmbedBlock.

Module MediaBlock.
Section methods.
Context `{PyRuntime}.

Definition file_mimetype (self : t) : result value :=
  file ← py_get (data self) "file" (VDict ∅);
  py_get file "mimetype" VNone.

Definition file_url (self : t) : result value :=
  file ← py_get (data self) "file" (VDict ∅);
  py_get file "urls" VNone.

Definition caption (self : t) : result value := py_get (data self) "caption" VNone.

Definition with_border (self : t) : result value :=
  py_get (data self) "withBorder" (VBool false).

Definition stretched (self : t) : result value :=
  py_get (data self) "stretched" (VBool false).

Definition with_background (self : t) : result value :=
  py_get (data self) "withBackground" (VBool false).

(** The [img] element of the image branch, for the mimetype [m] *)
Definition image_parts (m : string) (_url : value) (caption : string)
  : result (list string) :=
  srcset ←
    (if negb (contains "image/svg" m)
     then
       normal ← py_get _url "normal" VNone;
       medium ← py_get _url "medium" VNone;
       small ← py_get _url "small" VNone;
       Ok (VStr (py_str normal +:+ " 1080w, "
                 +:+ py_str medium +:+ " 720w, "
                 +:+ py_str small +:+ " 480w"))
     else Ok (VList []));
  full ← py_get _url "full" (VStr "");
  alt ← _clean (VStr caption);
  Ok [ tpl "     <img class='media-tool__media-picture' src='" +:+ py_str full +:+ tpl "' ";
       if truthy srcset then tpl "srcset='" +:+ py_str srcset +:+ tpl "' " else "";
       tpl "alt='" +:+ alt +:+ tpl "' />" ].

(** The [video] element of the video branch *)
Definition video_parts (_url : value) : result (list string) :=
  full ← py_get _url "full" (VStr "");
  Ok [ tpl "     <video class='media-tool__media-picture' src='" +:+ py_str full
       +:+ tpl "' controls=''></video>" ].

(** [if flag: classes.append(name)] *)
Definition modifier (flag : value) (name : string) : list string :=
  if truthy flag then [name] else [].

(** [self.file_mimetype.startswith(...)] is the first use of the mimetype:
    only a str has the method. *)
Definition html (self : t) (sanitize : bool) : result string :=
  _url ← file_url self;
  caption ← caption self;
  caption ← sanitize_if sanitize caption;
  caption ← strip_caption caption;
  let classes := ["cdx-block"; "media-tool"; "media-tool--filled"] in
  stretched ← stretched self;
  let classes := app classes (modifier stretched "media-tool--stretched") in
  with_border ← with_border self;
  let classes := app classes (modifier with_border "media-tool--withBorder") in
  with_background ← with_background self;
  let classes := app classes (modifier with_background "media-tool--withBackground") in
  let classes_string := join " " classes in
  let parts :=
    [ tpl "<div class='" +:+ classes_string +:+ tpl "'>"
      +:+ "<figure>"
      +:+ tpl "  <div class='media-tool__media'>" ] in
  mimetype ← file_mimetype self;
  parts ←
    match mimetype with
    | VStr m =>
        if startswith m "image"
        then more ← image_parts m _url caption; Ok (app parts more)
        else if startswith m "video"
        then more ← video_parts _url; Ok (app parts more)
        else Ok parts
    | _ => Raise AttributeError
    end;
  placeholder ← _clean (VStr caption);
  let parts :=
    app parts
    [ "  </div>"
      +:+ tpl "<figcaption class='media-tool__caption' data-placeholder='" +:+ placeholder
      +:+ tpl "'>" +:+ caption +:+ "</figcaption>"
      +:+ "</figure>"
      +:+ "</div>" ] in
  Ok (join "" parts).
End methods.
End MediaBlock.

Module TelegramPost.
Section methods.
Context `{PyRuntime}.

Definition messageId (self : t) : result value := py_get (data self) "messageId" (VStr "").

Definition channelName (self : t) : result value :=
  py_get (data self) "channelName" (VStr "").

Definition embed (self : t) : result value := py_get (data self) "embed" (VStr "").

Definition caption (self : t) : result value := py_get (data self) "caption" VNone.

Definition html (self : t) (sanitize : bool) : result string :=
  channelName ← channelName self;
  messageId ← messageId self;
  let parts :=
    [ tpl "<div class='cdx-block telegram-post'>"
      +:+ tpl "<script async src='https://telegram.org/js/telegram-widget.js?22' data-telegram-post='"
      +:+ py_str channelName +:+ "/" +:+ py_str messageId
      +:+ tpl "' data-width='100%'></script>"
      +:+ "</div>" ] in
  Ok (join "" parts).
End methods.
End TelegramPost.

(** * Properties *)

(** ** Evaluating the model

    [text_runtime] runs the model on concrete blocks.  Its sanitizer returns
    the text it is given, as [bleach.clean] does on the texts of the examples
    below: words, and the allow-listed tag [<br>]. *)
Definition text_runtime : PyRuntime :=
  {| bleach_clean _ _ s := s;
     py_repr _ := EmptyString;
     str_chars s := (fun c => String c EmptyString) <$> list_ascii_of_string s;
     dict_keys m := (map_to_list m).*1 |}.

(** The runtime [rt] with the sanitizer [clean] in place of its own *)
Definition with_sanitizer (clean : list string -> list string -> string -> string)
    (rt : PyRuntime) : PyRuntime :=
  {| bleach_clean := clean;
     py_repr := @py_repr rt;
     str_chars := @str_chars rt;
     dict_keys := @dict_keys rt |}.

(** A sanitizer that answers [gone] to every text *)
Definition gone_runtime : PyRuntime :=
  with_sanitizer (fun _ _ _ => "gone") text_runtime.

(** The block record [{"type": ty, "data": d}] *)
Definition block (ty : string) (d : dict) : t :=
  {| _data := {[ "type" := VStr ty; "data" := VDict d ]} |}.

(** The block record [{"type": ty, "data": d, "tunes": tn}] *)
Definition tuned_block (ty : string) (d tn : dict) : t :=
  {| _data := {[ "type" := VStr ty; "data" := VDict d; "tunes" := VDict tn ]} |}.

(** ** Example blocks *)

Definition urls4 : dict :=
  {[ "full" := VStr "f"; "normal" := VStr "n"; "medium" := VStr "m"; "small" := VStr "s" ]}.

Definition png_file : dict := {[ "mimetype" := VStr "image/png"; "urls" := VDict urls4 ]}.

Definition svg_file : dict := {[ "mimetype" := VStr "image/svg+xml"; "urls" := VDict urls4 ]}.

Definition svg_file_no_full : dict :=
  {[ "mimetype" := VStr "image/svg+xml"; "urls" := VDict ∅ ]}.

Definition odd_file : dict :=
  {[ "mimetype" := VStr "x-image/svg+xml"; "urls" := VDict urls4 ]}.

Definition no_mimetype_file : dict := {[ "urls" := VDict urls4 ]}.

Definition png_data : dict := {[ "caption" := VStr "cap<br>"; "file" := VDict png_file ]}.

Definition svg_data : dict := {[ "caption" := VStr "cap<br>"; "file" := VDict svg_file ]}.

Definition svg_no_full_data : dict :=
  {[ "caption" := VStr "cap<br>"; "file" := VDict svg_file_no_full ]}.

Definition png_no_caption_data : dict := {[ "file" := VDict png_file ]}.

Definition odd_data : dict := {[ "caption" := VStr "cap"; "file" := VDict odd_file ]}.

Definition no_mimetype_data : dict :=
  {[ "caption" := VStr "cap"; "file" := VDict no_mimetype_file ]}.

Definition quote_data : dict :=
  {[ "text" := VStr "Hi<br>"; "caption" := VStr "cap<br>"; "alignment" := VStr "left" ]}.

Definition quote_br_caption_data : dict :=
  {[ "text" := VStr "Hi"; "caption" := VStr "<br>"; "alignment" := VStr "left" ]}.

Definition quote_no_caption_data : dict :=
  {[ "text" := VStr "Hi"; "alignment" := VStr "left" ]}.

Definition quote_no_text_data : dict :=
  {[ "caption" := VStr "cap"; "alignment" := VStr "left" ]}.

Definition youtube_data : dict :=
  {[ "service" := VStr "youtube"; "embed" := VStr "https://www.youtube.com/embed/x";
     "caption" := VStr "cap<br>" ]}.

Definition youtube_no_embed_data : dict :=
  {[ "service" := VStr "youtube"; "caption" := VStr "cap<br>" ]}.

Definition youtube_no_caption_data : dict :=
  {[ "service" := VStr "youtube"; "embed" := VStr "https://www.youtube.com/embed/x" ]}.

Definition twitter_no_source_data : dict :=
  {[ "service" := VStr "twitter"; "caption" := VStr "cap<br>" ]}.

Definition vimeo_data : dict :=
  {[ "service" := VStr "vimeo"; "embed" := VStr "https://player.vimeo.com/video/1";
     "caption" := VStr "cap<br>" ]}.

Definition no_service_data : dict := {[ "caption" := VStr "cap<br>" ]}.

Definition telegram_data : dict :=
  {[ "channelName" := VStr "chan"; "messageId" := VInt 12 ]}.

Definition ordered_data : dict :=
  {[ "style" := VStr "ordered"; "items" := VList [VStr "one"; VStr "two"] ]}.

Definition unordered_data : dict :=
  {[ "style" := VStr "unordered"; "items" := VList [VStr "one"; VStr "two"] ]}.

Definition mixed_items_data : dict :=
  {[ "style" := VStr "unordered"; "items" := VList [VStr "one"; VInt 2] ]}.

Definition checklist_data : dict :=
  {[ "style" := VStr "checklist"; "items" := VList [VStr "one"; VStr "two"] ]}.

Definition script_data : dict := {[ "code" := VStr "<script>1</script>" ]}.

Definition h3_data : dict := {[ "level" := VInt 3; "text" := VStr "Hi" ]}.

Definition h3_no_text_data : dict := {[ "level" := VInt 3 ]}.

Definition h7_data : dict := {[ "level" := VInt 7; "text" := VStr "Hi" ]}.

Definition htrue_data : dict := {[ "level" := VBool true; "text" := VStr "Hi" ]}.

Definition paragraph_data : dict := {[ "text" := VStr "Hi" ]}.

Definition empty_tune : dict := {[ "AlignmentTune" := VDict ∅ ]}.

Definition null_data_record : t := {| _data := {[ "type" := VStr "code"; "data" := VNone ]} |}.

Definition empty_record : t := {| _data := ∅ |}.

Definition raw_data : dict := {[ "html" := VStr "<script>1</script>" ]}.

Definition warning_data : dict := {[ "title" := VStr "ttl"; "message" := VStr "" ]}.

Definition twitter_data : dict :=
  {[ "service" := VStr "twitter"; "source" := VStr "https://twitter.com/a/status/1";
     "caption" := VStr "cap<br>" ]}.

Definition video_file : dict := {[ "mimetype" := VStr "video/mp4"; "urls" := VDict urls4 ]}.

Definition video_data : dict := {[ "caption" := VStr "cap<br>"; "file" := VDict video_file ]}.

Definition pdf_file : dict := {[ "mimetype" := VStr "application/pdf" ]}.

Definition pdf_data : dict := {[ "caption" := VStr "cap<br>"; "file" := VDict pdf_file ]}.

Definition png_no_urls_file : dict := {[ "mimetype" := VStr "image/png" ]}.

Definition png_no_urls_data : dict :=
  {[ "caption" := VStr "cap<br>"; "file" := VDict png_no_urls_file ]}.

Definition png_full_only_file : dict :=
  {[ "mimetype" := VStr "image/png"; "urls" := VDict {[ "full" := VStr "f" ]} ]}.

Definition png_full_only_data : dict :=
  {[ "caption" := VStr "cap<br>"; "file" := VDict png_full_only_file ]}.

Definition center_tune : dict :=
  {[ "AlignmentTune" := VDict {[ "alignment" := VStr "center" ]} ]}.

Definition str_tune : dict := {[ "AlignmentTune" := VStr "center" ]}.

Definition hfalse_data : dict := {[ "level" := VBool false; "text" := VStr "Hi" ]}.

Definition null_items_data : dict := {[ "style" := VStr "ordered"; "items" := VNone ]}.

Definition flagged_pdf_data : dict :=
  {[ "caption" := VStr "cap<br>"; "file" := VDict pdf_file;
     "stretched" := VInt 1; "withBorder" := VStr "yes"; "withBackground" := VInt 0 ]}.

(** ** The expected outputs *)

Section Outputs.
Context `{PyRuntime}.

(** For a str [s], the str that [_sanitize(s) if sanitize else s] is *)
Definition sanitized (sanitize : bool) (s : string) : string :=
  if sanitize then bleach_clean _sanitize_tags _sanitize_attributes s else s.

(** The caption that quote, embed and media blocks show for the str [c] *)
Definition shown_caption (sanitize : bool) (c : string) : string :=
  strip_br (sanitized sanitize c).

(** [_clean(s)] for a str [s] *)
Definition cleaned (s : string) : string :=
  bleach_clean [] [] (replace "<br>" newline s).

Definition telegram_widget (channelName messageId : value) : string :=
  tpl "<div class='cdx-block telegram-post'><script async src='https://telegram.org/js/telegram-widget.js?22' data-telegram-post='"
  +:+ py_str channelName +:+ "/" +:+ py_str messageId
  +:+ tpl "' data-width='100%'></script></div>".

(** The figure of an embed block around its [media] element *)
Definition embed_figure (service : value) (media caption : string) : string :=
  tpl "<div class='cdx-block embed-tool embed-tool-" +:+ py_str service
  +:+ tpl "'><figure><div class='embed-tool__embed'>" +:+ media
  +:+ tpl "</div><figcaption class='embed-tool__caption'>" +:+ caption
  +:+ "</figcaption></figure></div>".

Definition youtube_iframe (embed : value) : string :=
  tpl "<iframe src='" +:+ py_str embed
  +:+ tpl "' width='100%' style='aspect-ratio: 16/9' frameborder='0' allow='accelerometer; autoplay; clipboard-write; encrypted-media; gyroscope; picture-in-picture; web-share' allowfullscreen></iframe>".

Definition twitter_tweet (source : value) : string :=
  tpl "<blockquote class='twitter-tweet'><blockquote class='twitter-tweet'><a href='"
  +:+ py_str source
  +:+ tpl "'></a></blockquote><script async src='https://platform.twitter.com/widgets.js' charset='utf-8'></script>".

(** A list item, and the list element around the items *)
Definition li (text : string) : string := "<li>" +:+ text +:+ "</li>".

Definition list_element (tag style : string) (items : list string) : string :=
  "<" +:+ tag +:+ tpl " class='cdx-block cdx-list cdx-list--" +:+ style +:+ tpl "'>"
  +:+ join "" items +:+ "</" +:+ tag +:+ ">".

(** The citation of a quote block, for the caption it shows *)
Definition quote_cite (sanitize : bool) (caption : string) : string :=
  if truthy (VStr caption)
  then tpl "<cite class='ce-quote__caption'>" +:+ sanitized sanitize caption +:+ "</cite>"
  else "".

(** The quote element around its text and its citation; [raw_caption] is the
    [caption] field as the block has it. *)
Definition quote_element (alignment raw_caption : value) (text cite : string) : string :=
  tpl "<div class='cdx-block ce-quote ce-quote-with-align-" +:+ py_str alignment
  +:+ (if truthy raw_caption then " ce-quote-with-caption" else "")
  +:+ tpl "'>      <blockquote class='ce-quote__blockquote'>" +:+ text +:+ cite
  +:+ "      </blockquote></div>".

(** The [class] attribute of a media block, from its three flags *)
Definition media_classes (stretched with_border with_background : value) : string :=
  join " "
    (app (app (app ["cdx-block"; "media-tool"; "media-tool--filled"]
                   (MediaBlock.modifier stretched "media-tool--stretched"))
              (MediaBlock.modifier with_border "media-tool--withBorder"))
         (MediaBlock.modifier with_background "media-tool--withBackground")).

(** The figure of a media block around its [media] element *)
Definition media_figure (classes media caption : string) : string :=
  tpl "<div class='" +:+ classes +:+ tpl "'><figure>  <div class='media-tool__media'>"
  +:+ media
  +:+ tpl "  </div><figcaption class='media-tool__caption' data-placeholder='"
  +:+ cleaned caption +:+ tpl "'>" +:+ caption +:+ "</figcaption></figure></div>".

(** The [srcset] attribute of a responsive image *)
Definition media_srcset (normal medium small : value) : string :=
  tpl "srcset='" +:+ py_str normal +:+ " 1080w, " +:+ py_str medium +:+ " 720w, "
  +:+ py_str small +:+ tpl " 480w' ".

Definition media_img (full : value) (srcset caption : string) : string :=
  tpl "     <img class='media-tool__media-picture' src='" +:+ py_str full +:+ tpl "' "
  +:+ srcset +:+ tpl "alt='" +:+ cleaned caption +:+ tpl "' />".

(** The warning element around its title and message elements *)
Definition warning_element (title message : string) : string :=
  tpl "<div class='cdx-block ce-warning'>  <blockquote class='ce-warning__blockquote'>"
  +:+ title +:+ message +:+ "  </blockquote></div>".

Definition warning_title (title : value) : string :=
  if truthy title
  then tpl "    <b class='ce-warning__title'>" +:+ py_str title +:+ "</b>"
  else "".

Definition warning_message (message : value) : string :=
  if truthy message
  then tpl "    <div class='ce-warning__message'>" +:+ py_str message +:+ "</div>"
  else "".

Definition header_element (level : value) (text : string) : string :=
  "<h" +:+ py_str level +:+ tpl " class='cdx-block ce-header'>" +:+ text
  +:+ "</h" +:+ py_str level +:+ ">".

Definition header_level_error (level : value) : exn :=
  EditorJsParseError ("`" +:+ py_str level +:+ "` is not a valid header level.").
End Outputs.

(** ** Tactics and auxiliary facts *)

Lemma append_assoc (a b c : string) : (a +:+ b) +:+ c = a +:+ b +:+ c.
Proof.
  induction a as [|x a IH]; [reflexivity |].
  change (String x ((a +:+ b) +:+ c) = String x (a +:+ b +:+ c)).
  f_equal. exact IH.
Qed.

Lemma append_nil_r (a : string) : a +:+ "" = a.
Proof.
  induction a as [|x a IH]; [reflexivity |].
  change (String x (a +:+ "") = String x a). f_equal. exact IH.
Qed.

Lemma join_nil : join "" [] = "".
Proof. reflexivity. Qed.

Lemma join_cons (x : string) (l : list string) : join "" (x :: l) = x +:+ join "" l.
Proof. destruct l; [symmetry; apply append_nil_r | reflexivity]. Qed.

Lemma join_app (l k : list string) : join "" (app l k) = join "" l +:+ join "" k.
Proof.
  induction l as [|x l IH]; [reflexivity |].
  change (app (x :: l) k) with (x :: app l k).
  rewrite !join_cons, IH, append_assoc. reflexivity.
Qed.

(** One step of a method body: a lookup the hypotheses settle, or a bind on
    a value that is known. *)
Ltac py_step :=
  first
    [ progress cbn [mbind result_bind fmap result_fmap mret result_ret
                    py_get py_getitem default from_option Datatypes.id
                    sanitize_if _sanitize strip_caption]
    | match goal with
      | H : ?x = _ |- context [?x] => rewrite H
      end ].

Ltac py_run := repeat py_step.

(** Two outputs that differ in how their pieces are grouped *)
Ltac same_text := rewrite ?append_assoc; reflexivity.

(** The same, for an output that is still the join of its parts *)
Ltac joined_text :=
  rewrite ?join_app, ?join_cons, ?join_nil, ?append_nil_r, ?append_assoc; reflexivity.

Section Properties.
Context `{PyRuntime}.

Lemma sanitize_if_str (sanitize : bool) (s : string) :
  sanitize_if sanitize (VStr s) = Ok (VStr (sanitized sanitize s)).
Proof. destruct sanitize; reflexivity. Qed.

Lemma sanitize_if_on_not_str (x : value) :
  (forall s, x <> VStr s) -> sanitize_if true x = Raise TypeError.
Proof. intros Hx. destruct x; try reflexivity. now destruct (Hx s). Qed.

Lemma py_eq_str_false (v : value) (s : string) :
  v <> VStr s -> py_eq_str v s = false.
Proof.
  intros Hv. destruct v; try reflexivity.
  apply String.eqb_neq. intros ->. now apply Hv.
Qed.

(** The list comprehension of [ListBlock.html] over str items *)
Lemma list_items_str (sanitize : bool) (l : list string) :
  mapM (fun item => item ← sanitize_if sanitize item;
                    Ok ("<li>" +:+ py_str item +:+ "</li>")) (VStr <$> l)
  = Ok ((fun item => li (sanitized sanitize item)) <$> l).
Proof.
  induction l as [|x l IH]; [reflexivity |].
  rewrite !fmap_cons. cbn [mapM]. rewrite sanitize_if_str, IH. reflexivity.
Qed.

(** The same comprehension with the sanitize flag off, over any items *)
Lemma list_items_raw (l : list value) :
  mapM (fun item => item ← sanitize_if false item;
                    Ok ("<li>" +:+ py_str item +:+ "</li>")) l
  = Ok ((fun item => li (py_str item)) <$> l).
Proof.
  induction l as [|x l IH]; [reflexivity |].
  cbn [mapM]. rewrite IH. reflexivity.
Qed.

(** ** Code blocks *)

(** C4: a code block renders to the same string under both values of the
    sanitize flag, the code standing verbatim between the [pre] tags; the
    code [<script>1</script>] renders to
    [<div class="cdx-block ce-code"><pre><script>1</script></pre></div>]. *)
Theorem C4_code_is_never_sanitized :
  (forall self, CodeBlock.html self true = CodeBlock.html self false)
  /\ (forall self d sanitize,
        data self = VDict d ->
        CodeBlock.html self sanitize =
          Ok (tpl "<div class='cdx-block ce-code'><pre>"
              +:+ py_str (default VNone (d !! "code")) +:+ "</pre></div>"))
  /\ (forall self d sanitize,
        data self = VDict d ->
        d !! "code" = Some (VStr "<script>1</script>") ->
        CodeBlock.html self sanitize =
          Ok (tpl "<div class='cdx-block ce-code'><pre><script>1</script></pre></div>")).
Proof.
  split; [reflexivity | split].
  - intros self d sanitize Hd. unfold CodeBlock.html, CodeBlock.text.
    py_run. reflexivity.
  - intros self d sanitize Hd Hcode. unfold CodeBlock.html, CodeBlock.text.
    py_run. reflexivity.
Qed.

(** ** Telegram posts *)

Lemma telegram_html (self : t) (d : dict) (sanitize : bool) :
  data self = VDict d ->
  TelegramPost.html self sanitize =
    Ok (telegram_widget (default (VStr "") (d !! "channelName"))
                        (default (VStr "") (d !! "messageId"))).
Proof.
  intros Hd.
  unfold TelegramPost.html, TelegramPost.channelName, TelegramPost.messageId.
  py_run. reflexivity.
Qed.

(** C9: a telegram post renders to the widget script whose post address is
    [{channelName}/{messageId}]; the output is a function of these two
    fields alone, so neither the caption nor the sanitize flag has any
    effect on it. *)
Theorem C9_telegram_post_address :
  (forall self d sanitize,
      data self = VDict d ->
      TelegramPost.html self sanitize =
        Ok (tpl "<div class='cdx-block telegram-post'><script async src='https://telegram.org/js/telegram-widget.js?22' data-telegram-post='"
            +:+ py_str (default (VStr "") (d !! "channelName")) +:+ "/"
            +:+ py_str (default (VStr "") (d !! "messageId"))
            +:+ tpl "' data-width='100%'></script></div>"))
  /\ (forall self self' d d' sanitize sanitize',
        data self = VDict d ->
        data self' = VDict d' ->
        d !! "channelName" = d' !! "channelName" ->
        d !! "messageId" = d' !! "messageId" ->
        TelegramPost.html self sanitize = TelegramPost.html self' sanitize')
  /\ (forall self self' d caption sanitize sanitize',
        data self = VDict d ->
        data self' = VDict (<["caption" := caption]> d) ->
        TelegramPost.html self sanitize = TelegramPost.html self' sanitize').
Proof.
  split; [exact telegram_html | split].
  - intros self self' d d' sanitize sanitize' Hd Hd' Hc Hm.
    rewrite (telegram_html _ _ _ Hd), (telegram_html _ _ _ Hd').
    now rewrite Hc, Hm.
  - intros self self' d caption sanitize sanitize' Hd Hd'.
    rewrite (telegram_html _ _ _ Hd), (telegram_html _ _ _ Hd').
    now rewrite !lookup_insert_ne by discriminate.
Qed.

(** ** Paragraphs *)

(** C10: a paragraph whose tunes bind [AlignmentTune] to a mapping without
    the key [alignment] raises [KeyError]; the default [left] is the
    alignment of a paragraph whose tunes have no [AlignmentTune] entry. *)
Theorem C10_alignment_tune_without_alignment :
  (forall self tn tune sanitize,
      tunes self = VDict tn ->
      tn !! "AlignmentTune" = Some (VDict tune) ->
      tune !! "alignment" = None ->
      ParagraphBlock.html self sanitize = Raise (KeyError "alignment"))
  /\ (forall self tn d text sanitize,
        tunes self = VDict tn ->
        tn !! "AlignmentTune" = None ->
        data self = VDict d ->
        d !! "text" = Some (VStr text) ->
        ParagraphBlock.html self sanitize =
          Ok (tpl "<p style='text-align: left' class='cdx-block ce-paragraph'>"
              +:+ sanitized sanitize text +:+ "</p>")).
Proof.
  split.
  - intros self tn tune sanitize Htn Htune Hal. unfold ParagraphBlock.html.
    py_run. reflexivity.
  - intros self tn d text sanitize Htn Htune Hd Htext.
    unfold ParagraphBlock.html, ParagraphBlock.text.
    py_run. rewrite sanitize_if_str. py_run. reflexivity.
Qed.

(** ** Embeds *)

Lemma embed_html (self : t) (d : dict) (c : string) (service : value) (sanitize : bool) :
  data self = VDict d ->
  d !! "caption" = Some (VStr c) ->
  default (VStr "") (d !! "service") = service ->
  EmbedBlock.html self sanitize =
    Ok (embed_figure service
          (if py_eq_str service "youtube"
           then youtube_iframe (default (VStr "") (d !! "embed"))
           else if py_eq_str service "twitter"
                then twitter_tweet (default (VStr "") (d !! "source"))
                else "")
          (shown_caption sanitize c)).
Proof.
  intros Hd Hc Hs.
  unfold EmbedBlock.html, EmbedBlock.caption, EmbedBlock.service,
    EmbedBlock.embed, EmbedBlock.source.
  py_run. rewrite sanitize_if_str. py_run.
  unfold embed_figure, youtube_iframe, twitter_tweet, shown_caption.
  destruct (py_eq_str service "youtube"); [| destruct (py_eq_str service "twitter")];
    py_run; f_equal; cbn [app join String.concat]; same_text.
Qed.

(** C7: an embed block with a caption and the service [youtube] renders one
    [iframe], whose source is the [embed] field, inside the figure; with a
    service that is neither [youtube] nor [twitter] (such as [vimeo]) the
    figure holds no media element and still ends with its [figcaption]. *)
Theorem C7_embed_services :
  (forall self d c sanitize,
      data self = VDict d ->
      d !! "caption" = Some (VStr c) ->
      d !! "service" = Some (VStr "youtube") ->
      EmbedBlock.html self sanitize =
        Ok (tpl "<div class='cdx-block embed-tool embed-tool-youtube'><figure><div class='embed-tool__embed'>"
            +:+ tpl "<iframe src='" +:+ py_str (default (VStr "") (d !! "embed"))
            +:+ tpl "' width='100%' style='aspect-ratio: 16/9' frameborder='0' allow='accelerometer; autoplay; clipboard-write; encrypted-media; gyroscope; picture-in-picture; web-share' allowfullscreen></iframe>"
            +:+ tpl "</div><figcaption class='embed-tool__caption'>"
            +:+ shown_caption sanitize c +:+ "</figcaption></figure></div>"))
  /\ (forall self d c service sanitize,
        data self = VDict d ->
        d !! "caption" = Some (VStr c) ->
        default (VStr "") (d !! "service") = service ->
        service <> VStr "youtube" ->
        service <> VStr "twitter" ->
        EmbedBlock.html self sanitize =
          Ok (tpl "<div class='cdx-block embed-tool embed-tool-" +:+ py_str service
              +:+ tpl "'><figure><div class='embed-tool__embed'></div><figcaption class='embed-tool__caption'>"
              +:+ shown_caption sanitize c +:+ "</figcaption></figure></div>")).
Proof.
  split.
  - intros self d c sanitize Hd Hc Hs.
    rewrite (embed_html self d c (VStr "youtube") sanitize Hd Hc)
      by (rewrite Hs; reflexivity).
    change (py_eq_str (VStr "youtube") "youtube") with true. cbv iota.
    f_equal. unfold embed_figure, youtube_iframe. same_text.
  - intros self d c service sanitize Hd Hc Hs Hy Ht.
    rewrite (embed_html self d c service sanitize Hd Hc Hs).
    rewrite (py_eq_str_false _ _ Hy), (py_eq_str_false _ _ Ht).
    reflexivity.
Qed.

(** An embed block without a str caption cannot be rendered. *)
Lemma embed_html_caption_not_str (self : t) (d : dict) (c : value) (sanitize : bool) :
  data self = VDict d ->
  default VNone (d !! "caption") = c ->
  (forall s, c <> VStr s) ->
  EmbedBlock.html self sanitize = Raise (if sanitize then TypeError else AttributeError).
Proof.
  intros Hd Hc Hn. unfold EmbedBlock.html, EmbedBlock.caption. py_run.
  destruct sanitize; destruct c; try reflexivity; now destruct (Hn s).
Qed.

(** ** Lists *)

Lemma list_html_invalid (self : t) (d : dict) (style : value) (sanitize : bool) :
  data self = VDict d ->
  default VNone (d !! "style") = style ->
  style <> VStr "ordered" ->
  style <> VStr "unordered" ->
  ListBlock.html self sanitize =
    Raise (EditorJsParseError ("`" +:+ py_str style +:+ "` is not a valid list style.")).
Proof.
  intros Hd Hs Ho Hu. unfold ListBlock.html, ListBlock.style. py_run.
  unfold ListBlock.VALID_STYLES. cbn [existsb].
  rewrite (py_eq_str_false _ _ Ho), (py_eq_str_false _ _ Hu). reflexivity.
Qed.

(** C3: a list block of style [ordered] (or [unordered]) renders an [ol]
    (or [ul]) element holding one [li] per item of [items], in the order of
    the input: for str items under both values of the sanitize flag, for any
    items when the flag is off; with any other style, or none, rendering
    raises the parse error. *)
Theorem C3_list_items_and_styles :
  (forall self d l sanitize,
      data self = VDict d ->
      d !! "style" = Some (VStr "ordered") ->
      default (VList []) (d !! "items") = VList (VStr <$> l) ->
      ListBlock.html self sanitize =
        Ok (tpl "<ol class='cdx-block cdx-list cdx-list--ordered'>"
            +:+ join "" ((fun item => "<li>" +:+ sanitized sanitize item +:+ "</li>") <$> l)
            +:+ "</ol>"))
  /\ (forall self d l sanitize,
        data self = VDict d ->
        d !! "style" = Some (VStr "unordered") ->
        default (VList []) (d !! "items") = VList (VStr <$> l) ->
        ListBlock.html self sanitize =
          Ok (tpl "<ul class='cdx-block cdx-list cdx-list--unordered'>"
              +:+ join "" ((fun item => "<li>" +:+ sanitized sanitize item +:+ "</li>") <$> l)
              +:+ "</ul>"))
  /\ (forall self d style items,
        data self = VDict d ->
        d !! "style" = Some (VStr style) ->
        style = "ordered" \/ style = "unordered" ->
        default (VList []) (d !! "items") = VList items ->
        ListBlock.html self false =
          Ok ("<" +:+ (if String.eqb style "unordered" then "ul" else "ol")
              +:+ tpl " class='cdx-block cdx-list cdx-list--" +:+ style +:+ tpl "'>"
              +:+ join "" ((fun item => "<li>" +:+ py_str item +:+ "</li>") <$> items)
              +:+ "</" +:+ (if String.eqb style "unordered" then "ul" else "ol") +:+ ">"))
  /\ (forall self d style sanitize,
        data self = VDict d ->
        default VNone (d !! "style") = style ->
        style <> VStr "ordered" ->
        style <> VStr "unordered" ->
        exists msg, ListBlock.html self sanitize = Raise (EditorJsParseError msg)).
Proof.
  repeat apply conj.
  - intros self d l sanitize Hd Hs Hi.
    unfold ListBlock.html, ListBlock.style, ListBlock.items. py_run.
    cbn [ListBlock.VALID_STYLES existsb py_eq_str String.eqb Ascii.eqb Bool.eqb
           orb negb py_iter].
    py_run. rewrite list_items_str. py_run. reflexivity.
  - intros self d l sanitize Hd Hs Hi.
    unfold ListBlock.html, ListBlock.style, ListBlock.items. py_run.
    cbn [ListBlock.VALID_STYLES existsb py_eq_str String.eqb Ascii.eqb Bool.eqb
           orb negb py_iter].
    py_run. rewrite list_items_str. py_run. reflexivity.
  - intros self d style items Hd Hs Hv Hi.
    unfold ListBlock.html, ListBlock.style, ListBlock.items. py_run.
    destruct Hv as [-> | ->];
      cbn [ListBlock.VALID_STYLES existsb py_eq_str String.eqb Ascii.eqb Bool.eqb
             orb negb py_iter];
      py_run; rewrite list_items_raw; py_run; reflexivity.
  - intros self d style sanitize Hd Hs Ho Hu. eexists.
    exact (list_html_invalid self d style sanitize Hd Hs Ho Hu).
Qed.

(** ** Quotes *)

Lemma quote_html (self : t) (d : dict) (c : string) (text : value) (sanitize : bool) :
  data self = VDict d ->
  d !! "caption" = Some (VStr c) ->
  sanitize_if sanitize (default VNone (d !! "text")) = Ok text ->
  QuoteBlock.html self sanitize =
    Ok (quote_element (default VNone (d !! "alignment")) (VStr c) (py_str text)
          (quote_cite sanitize (shown_caption sanitize c))).
Proof.
  intros Hd Hc Ht.
  unfold QuoteBlock.html, QuoteBlock.caption, QuoteBlock.alignment, QuoteBlock.text.
  py_run. rewrite sanitize_if_str. py_run.
  fold (shown_caption sanitize c). unfold quote_cite, quote_element.
  destruct (truthy (VStr (shown_caption sanitize c))).
  - rewrite sanitize_if_str. py_run. f_equal.
    cbn [join String.concat py_str]. same_text.
  - py_run. f_equal. cbn [join String.concat py_str]. same_text.
Qed.

(** A quote block without a str caption cannot be rendered. *)
Lemma quote_html_caption_not_str (self : t) (d : dict) (c : value) (sanitize : bool) :
  data self = VDict d ->
  default VNone (d !! "caption") = c ->
  (forall s, c <> VStr s) ->
  QuoteBlock.html self sanitize = Raise (if sanitize then TypeError else AttributeError).
Proof.
  intros Hd Hc Hn. unfold QuoteBlock.html, QuoteBlock.caption. py_run.
  destruct sanitize.
  - rewrite (sanitize_if_on_not_str c Hn). reflexivity.
  - py_run. destruct c; try reflexivity. now destruct (Hn s).
Qed.

(** C5: the quote block with text [Hi<br>], caption [cap<br>] and alignment
    [left] renders the citation [cap], the trailing [<br>] of the caption
    gone, after the text [Hi<br>], which keeps its own; with the sanitize
    flag on this holds for a sanitizer that leaves these three texts as they
    are.  A quote block whose caption is empty once trimmed renders no
    citation element: the text is followed by the end of the blockquote. *)
Theorem C5_quote_caption_trimmed :
  (forall self d sanitize,
      data self = VDict d ->
      d !! "text" = Some (VStr "Hi<br>") ->
      d !! "caption" = Some (VStr "cap<br>") ->
      d !! "alignment" = Some (VStr "left") ->
      sanitized sanitize "Hi<br>" = "Hi<br>" ->
      sanitized sanitize "cap<br>" = "cap<br>" ->
      sanitized sanitize "cap" = "cap" ->
      QuoteBlock.html self sanitize =
        Ok (tpl "<div class='cdx-block ce-quote ce-quote-with-align-left ce-quote-with-caption'>      <blockquote class='ce-quote__blockquote'>Hi<br><cite class='ce-quote__caption'>cap</cite>      </blockquote></div>"))
  /\ (forall self d c text sanitize,
        data self = VDict d ->
        d !! "caption" = Some (VStr c) ->
        strip_br (sanitized sanitize c) = "" ->
        sanitize_if sanitize (default VNone (d !! "text")) = Ok text ->
        QuoteBlock.html self sanitize =
          Ok (tpl "<div class='cdx-block ce-quote ce-quote-with-align-"
              +:+ py_str (default VNone (d !! "alignment"))
              +:+ (if truthy (VStr c) then " ce-quote-with-caption" else "")
              +:+ tpl "'>      <blockquote class='ce-quote__blockquote'>"
              +:+ py_str text +:+ "      </blockquote></div>")).
Proof.
  split.
  - intros self d sanitize Hd Ht Hc Ha Hhi Hcap1 Hcap2.
    rewrite (quote_html self d "cap<br>" (VStr "Hi<br>") sanitize Hd Hc)
      by (rewrite Ht; cbn [default from_option Datatypes.id];
          rewrite sanitize_if_str, Hhi; reflexivity).
    unfold shown_caption. rewrite Hcap1.
    change (strip_br "cap<br>") with "cap".
    unfold quote_cite. change (truthy (VStr "cap")) with true. cbv iota.
    rewrite Hcap2, Ha. reflexivity.
  - intros self d c text sanitize Hd Hc Hempty Ht.
    rewrite (quote_html self d c text sanitize Hd Hc Ht).
    unfold shown_caption. rewrite Hempty. reflexivity.
Qed.

(** ** Headers *)

Lemma header_level_valid (self : t) (d : dict) (n : Z) :
  data self = VDict d ->
  default (VInt 1) (d !! "level") = VInt n ->
  1 ≤ n ≤ 6 ->
  HeaderBlock.level self = Ok (VInt n).
Proof.
  intros Hd Hl Hn. unfold HeaderBlock.level. py_run. cbn [as_int].
  unfold HeaderBlock.VALID_HEADER_LEVEL_RANGE.
  rewrite bool_decide_eq_true_2 by lia. reflexivity.
Qed.

Lemma header_level_invalid (self : t) (d : dict) (v : value) :
  data self = VDict d ->
  d !! "level" = Some v ->
  v <> VBool true ->
  (forall n, v = VInt n -> ¬ (1 ≤ n ≤ 6)) ->
  HeaderBlock.level self = Raise (header_level_error v).
Proof.
  intros Hd Hl Hb Hn. unfold HeaderBlock.level. py_run.
  destruct v as [| [|] | n | | | |]; try reflexivity.
  - now destruct Hb.
  - cbn [as_int]. unfold HeaderBlock.VALID_HEADER_LEVEL_RANGE.
    rewrite bool_decide_eq_false_2; [reflexivity |].
    intros Hr. apply (Hn n eq_refl). lia.
Qed.

Lemma header_html (self : t) (d : dict) (n : Z) (text : value) (sanitize : bool) :
  data self = VDict d ->
  default (VInt 1) (d !! "level") = VInt n ->
  1 ≤ n ≤ 6 ->
  sanitize_if sanitize (default VNone (d !! "text")) = Ok text ->
  HeaderBlock.html self sanitize = Ok (header_element (VInt n) (py_str text)).
Proof.
  intros Hd Hl Hn Ht. unfold HeaderBlock.html.
  rewrite (header_level_valid self d n Hd Hl Hn). unfold HeaderBlock.text.
  py_run. reflexivity.
Qed.

(** A header without a str text cannot be rendered with the sanitize flag
    on. *)
Lemma header_html_text_not_str (self : t) (d : dict) (n : Z) (text : value) :
  data self = VDict d ->
  default (VInt 1) (d !! "level") = VInt n ->
  1 ≤ n ≤ 6 ->
  default VNone (d !! "text") = text ->
  (forall s, text <> VStr s) ->
  HeaderBlock.html self true = Raise TypeError.
Proof.
  intros Hd Hl Hn Ht Hs. unfold HeaderBlock.html.
  rewrite (header_level_valid self d n Hd Hl Hn). unfold HeaderBlock.text.
  py_run. destruct text; try reflexivity. now destruct (Hs s).
Qed.

(** C2, amended: a header whose level is an integer of 1..6, or absent and
    then 1, renders [<h{level} class="cdx-block ce-header">] and the matching
    [</h{level}>] around its text, when the text is a str or the sanitize
    flag is off; a header whose level is present and is no integer, or an
    integer outside 1..6, raises the parse error (the boolean [true] is left
    aside). *)
Theorem C2_header_levels :
  (forall self d n text sanitize,
      data self = VDict d ->
      default (VInt 1) (d !! "level") = VInt n ->
      1 ≤ n ≤ 6 ->
      d !! "text" = Some (VStr text) ->
      HeaderBlock.html self sanitize =
        Ok ("<h" +:+ py_str (VInt n) +:+ tpl " class='cdx-block ce-header'>"
            +:+ sanitized sanitize text +:+ "</h" +:+ py_str (VInt n) +:+ ">"))
  /\ (forall self d n,
        data self = VDict d ->
        default (VInt 1) (d !! "level") = VInt n ->
        1 ≤ n ≤ 6 ->
        HeaderBlock.html self false =
          Ok ("<h" +:+ py_str (VInt n) +:+ tpl " class='cdx-block ce-header'>"
              +:+ py_str (default VNone (d !! "text")) +:+ "</h" +:+ py_str (VInt n) +:+ ">"))
  /\ (forall self d v sanitize,
        data self = VDict d ->
        d !! "level" = Some v ->
        v <> VBool true ->
        (forall n, v = VInt n -> ¬ (1 ≤ n ≤ 6)) ->
        HeaderBlock.html self sanitize =
          Raise (EditorJsParseError ("`" +:+ py_str v +:+ "` is not a valid header level."))).
Proof.
  split; [| split].
  - intros self d n text sanitize Hd Hl Hn Ht.
    apply (header_html self d n (VStr (sanitized sanitize text)) sanitize Hd Hl Hn).
    rewrite Ht. apply sanitize_if_str.
  - intros self d n Hd Hl Hn.
    apply (header_html self d n (default VNone (d !! "text")) false Hd Hl Hn).
    reflexivity.
  - intros self d v sanitize Hd Hl Hb Hn. unfold HeaderBlock.html.
    rewrite (header_level_invalid self d v Hd Hl Hb Hn). reflexivity.
Qed.

(** ** Media *)

Lemma append_not_empty (a : string) (c : ascii) (b r : string) :
  String.eqb (a +:+ String c b +:+ r) "" = false.
Proof. destruct a; reflexivity. Qed.

(** The head of [MediaBlock.html], up to the branch on the mimetype *)
Lemma media_html (self : t) (d file : dict) (c m : string) (urls : value)
    (sanitize : bool) :
  data self = VDict d ->
  d !! "caption" = Some (VStr c) ->
  d !! "file" = Some (VDict file) ->
  file !! "mimetype" = Some (VStr m) ->
  default VNone (file !! "urls") = urls ->
  MediaBlock.html self sanitize =
    (media ← (if startswith m "image"
              then join "" <$> MediaBlock.image_parts m urls (shown_caption sanitize c)
              else if startswith m "video"
                   then join "" <$> MediaBlock.video_parts urls
                   else Ok "");
     Ok (media_figure
           (media_classes (default (VBool false) (d !! "stretched"))
                          (default (VBool false) (d !! "withBorder"))
                          (default (VBool false) (d !! "withBackground")))
           media (shown_caption sanitize c))).
Proof.
  intros Hd Hc Hf Hm Hu.
  unfold MediaBlock.html, MediaBlock.file_url, MediaBlock.caption, MediaBlock.stretched,
    MediaBlock.with_border, MediaBlock.with_background, MediaBlock.file_mimetype.
  py_run. rewrite sanitize_if_str. py_run. fold (shown_caption sanitize c).
  unfold media_figure, media_classes. set (classes := join " " _).
  fold (cleaned (shown_caption sanitize c)).
  destruct (startswith m "image"); [| destruct (startswith m "video")].
  - destruct (MediaBlock.image_parts m urls (shown_caption sanitize c)) as [parts|e];
      [| reflexivity].
    cbn [mbind result_bind fmap result_fmap _clean]. f_equal. joined_text.
  - destruct (MediaBlock.video_parts urls) as [parts|e]; [| reflexivity].
    cbn [mbind result_bind fmap result_fmap _clean]. f_equal. joined_text.
  - cbn [mbind result_bind fmap result_fmap _clean]. f_equal. joined_text.
Qed.

Lemma image_parts_responsive (m : string) (u : dict) (caption : string) :
  contains "image/svg" m = false ->
  join "" <$> MediaBlock.image_parts m (VDict u) caption =
    Ok (media_img (default (VStr "") (u !! "full"))
          (media_srcset (default VNone (u !! "normal")) (default VNone (u !! "medium"))
                        (default VNone (u !! "small")))
          caption).
Proof.
  intros Hsvg. unfold MediaBlock.image_parts. rewrite Hsvg.
  cbn [negb mbind result_bind fmap result_fmap py_get _clean truthy py_str].
  rewrite append_not_empty. cbn [negb]. f_equal.
  unfold media_img, media_srcset. fold (cleaned caption). joined_text.
Qed.

Lemma image_parts_svg (m : string) (u : dict) (caption : string) :
  contains "image/svg" m = true ->
  join "" <$> MediaBlock.image_parts m (VDict u) caption =
    Ok (media_img (default (VStr "") (u !! "full")) "" caption).
Proof.
  intros Hsvg. unfold MediaBlock.image_parts. rewrite Hsvg.
  cbn [negb mbind result_bind fmap result_fmap py_get _clean truthy py_str].
  f_equal. unfold media_img. fold (cleaned caption). joined_text.
Qed.

(** A media block without a str caption cannot be rendered. *)
Lemma media_html_caption_not_str (self : t) (d file : dict) (c : value) (sanitize : bool) :
  data self = VDict d ->
  default (VDict ∅) (d !! "file") = VDict file ->
  default VNone (d !! "caption") = c ->
  (forall s, c <> VStr s) ->
  MediaBlock.html self sanitize = Raise (if sanitize then TypeError else AttributeError).
Proof.
  intros Hd Hf Hc Hn. unfold MediaBlock.html, MediaBlock.file_url, MediaBlock.caption.
  py_run. destruct sanitize; destruct c; try reflexivity; now destruct (Hn s).
Qed.

(** A media block without a str mimetype cannot be rendered. *)
Lemma media_html_mimetype_not_str (self : t) (d file : dict) (c : string) (m : value)
    (sanitize : bool) :
  data self = VDict d ->
  d !! "caption" = Some (VStr c) ->
  default (VDict ∅) (d !! "file") = VDict file ->
  default VNone (file !! "mimetype") = m ->
  (forall s, m <> VStr s) ->
  MediaBlock.html self sanitize = Raise AttributeError.
Proof.
  intros Hd Hc Hf Hm Hn.
  unfold MediaBlock.html, MediaBlock.file_url, MediaBlock.caption, MediaBlock.stretched,
    MediaBlock.with_border, MediaBlock.with_background, MediaBlock.file_mimetype.
  py_run. rewrite sanitize_if_str. py_run.
  destruct m; try reflexivity. now destruct (Hn s).
Qed.

(** C6, amended: a media block with a str caption whose mimetype starts with
    [image] and holds no [image/svg] renders an [img] whose [srcset] lists
    the normal, medium and small URLs with the widths 1080w, 720w and 480w;
    one whose mimetype starts with [image] and holds [image/svg] renders an
    [img] with the full URL as [src] and no [srcset]. *)
Theorem C6_media_srcset :
  (forall self d file u c m full normal medium small sanitize,
      data self = VDict d ->
      d !! "caption" = Some (VStr c) ->
      d !! "file" = Some (VDict file) ->
      file !! "mimetype" = Some (VStr m) ->
      startswith m "image" = true ->
      contains "image/svg" m = false ->
      file !! "urls" = Some (VDict u) ->
      u !! "full" = Some (VStr full) ->
      u !! "normal" = Some (VStr normal) ->
      u !! "medium" = Some (VStr medium) ->
      u !! "small" = Some (VStr small) ->
      MediaBlock.html self sanitize =
        Ok (tpl "<div class='"
            +:+ media_classes (default (VBool false) (d !! "stretched"))
                              (default (VBool false) (d !! "withBorder"))
                              (default (VBool false) (d !! "withBackground"))
            +:+ tpl "'><figure>  <div class='media-tool__media'>     <img class='media-tool__media-picture' src='"
            +:+ full +:+ tpl "' srcset='" +:+ normal +:+ " 1080w, " +:+ medium
            +:+ " 720w, " +:+ small +:+ tpl " 480w' alt='"
            +:+ cleaned (shown_caption sanitize c)
            +:+ tpl "' />  </div><figcaption class='media-tool__caption' data-placeholder='"
            +:+ cleaned (shown_caption sanitize c) +:+ tpl "'>"
            +:+ shown_caption sanitize c +:+ "</figcaption></figure></div>"))
  /\ (forall self d file u c m sanitize,
        data self = VDict d ->
        d !! "caption" = Some (VStr c) ->
        d !! "file" = Some (VDict file) ->
        file !! "mimetype" = Some (VStr m) ->
        startswith m "image" = true ->
        contains "image/svg" m = true ->
        file !! "urls" = Some (VDict u) ->
        MediaBlock.html self sanitize =
          Ok (tpl "<div class='"
              +:+ media_classes (default (VBool false) (d !! "stretched"))
                                (default (VBool false) (d !! "withBorder"))
                                (default (VBool false) (d !! "withBackground"))
              +:+ tpl "'><figure>  <div class='media-tool__media'>     <img class='media-tool__media-picture' src='"
              +:+ py_str (default (VStr "") (u !! "full")) +:+ tpl "' alt='"
              +:+ cleaned (shown_caption sanitize c)
              +:+ tpl "' />  </div><figcaption class='media-tool__caption' data-placeholder='"
              +:+ cleaned (shown_caption sanitize c) +:+ tpl "'>"
              +:+ shown_caption sanitize c +:+ "</figcaption></figure></div>")).
Proof.
  split.
  - intros self d file u c m full normal medium small sanitize
      Hd Hc Hf Hm Himg Hsvg Hu Hfull Hnormal Hmedium Hsmall.
    rewrite (media_html self d file c m (VDict u) sanitize Hd Hc Hf Hm)
      by (rewrite Hu; reflexivity).
    rewrite Himg, (image_parts_responsive m u _ Hsvg), Hfull, Hnormal, Hmedium, Hsmall.
    cbn [mbind result_bind default from_option Datatypes.id]. f_equal.
    unfold media_figure, media_img, media_srcset. cbn [py_str]. same_text.
  - intros self d file u c m sanitize Hd Hc Hf Hm Himg Hsvg Hu.
    rewrite (media_html self d file c m (VDict u) sanitize Hd Hc Hf Hm)
      by (rewrite Hu; reflexivity).
    rewrite Himg, (image_parts_svg m u _ Hsvg).
    cbn [mbind result_bind]. f_equal.
    unfold media_figure, media_img. same_text.
Qed.

Lemma media_html_image (self : t) (d file u : dict) (c m : string) (sanitize : bool) :
  data self = VDict d ->
  d !! "caption" = Some (VStr c) ->
  d !! "file" = Some (VDict file) ->
  file !! "mimetype" = Some (VStr m) ->
  startswith m "image" = true ->
  file !! "urls" = Some (VDict u) ->
  MediaBlock.html self sanitize =
    Ok (media_figure
          (media_classes (default (VBool false) (d !! "stretched"))
                         (default (VBool false) (d !! "withBorder"))
                         (default (VBool false) (d !! "withBackground")))
          (media_img (default (VStr "") (u !! "full"))
             (if contains "image/svg" m then ""
              else media_srcset (default VNone (u !! "normal"))
                                (default VNone (u !! "medium"))
                                (default VNone (u !! "small")))
             (shown_caption sanitize c))
          (shown_caption sanitize c)).
Proof.
  intros Hd Hc Hf Hm Himg Hu.
  rewrite (media_html self d file c m (VDict u) sanitize Hd Hc Hf Hm)
    by (rewrite Hu; reflexivity).
  rewrite Himg. destruct (contains "image/svg" m) eqn:Hsvg.
  - rewrite (image_parts_svg m u _ Hsvg). reflexivity.
  - rewrite (image_parts_responsive m u _ Hsvg). reflexivity.
Qed.

(** ** Raw, warning and paragraph blocks *)

Lemma raw_html (self : t) (d : dict) (sanitize : bool) :
  data self = VDict d ->
  RawBlock.html self sanitize =
    Ok (tpl "<div class='cdx-block ce-raw'>" +:+ py_str (default (VStr "") (d !! "html"))
        +:+ "</div>").
Proof. intros Hd. unfold RawBlock.html. py_run. reflexivity. Qed.

Lemma warning_html_off (self : t) (d : dict) :
  data self = VDict d ->
  WarningBlock.html self false =
    Ok (warning_element (warning_title (default VNone (d !! "title")))
                        (warning_message (default VNone (d !! "message")))).
Proof.
  intros Hd. unfold WarningBlock.html, WarningBlock.title, WarningBlock.message.
  py_run. reflexivity.
Qed.

(** A warning without a str title cannot be rendered with the sanitize flag
    on. *)
Lemma warning_html_title_not_str (self : t) (d : dict) (title : value) :
  data self = VDict d ->
  default VNone (d !! "title") = title ->
  (forall s, title <> VStr s) ->
  WarningBlock.html self true = Raise TypeError.
Proof.
  intros Hd Ht Hn. unfold WarningBlock.html, WarningBlock.title. py_run.
  destruct title; try reflexivity. now destruct (Hn s).
Qed.

Lemma paragraph_html_off (self : t) (d tn : dict) :
  data self = VDict d ->
  tunes self = VDict tn ->
  tn !! "AlignmentTune" = None ->
  ParagraphBlock.html self false =
    Ok (tpl "<p style='text-align: left' class='cdx-block ce-paragraph'>"
        +:+ py_str (default VNone (d !! "text")) +:+ "</p>").
Proof.
  intros Hd Htn Hal. unfold ParagraphBlock.html, ParagraphBlock.text.
  py_run. reflexivity.
Qed.

Lemma list_html_no_items (self : t) (d : dict) (style : string) (sanitize : bool) :
  data self = VDict d ->
  d !! "style" = Some (VStr style) ->
  style = "ordered" \/ style = "unordered" ->
  d !! "items" = None ->
  ListBlock.html self sanitize =
    Ok (list_element (if String.eqb style "unordered" then "ul" else "ol") style []).
Proof.
  intros Hd Hs Hv Hi. unfold ListBlock.html, ListBlock.style, ListBlock.items.
  py_run. destruct Hv as [-> | ->]; reflexivity.
Qed.

(** ** Missing fields *)

(** C1, amended: the fields whose absence leaves an empty string or drops a
    sub-element, rendering going through: [html] of a raw block;
    [channelName] and [messageId] of a telegram post; [service], [embed] and
    [source] of an embed block with a str caption; the three flags and the
    full URL of an image with a str caption; [items] of a list; [title] and
    [message] of a warning when the sanitize flag is off.  A missing text of a
    header, paragraph or quote is rendered as [None] when the flag is off,
    and so is a missing code under either flag. *)
Theorem C1_missing_fields :
  (forall self d sanitize,
      data self = VDict d ->
      d !! "html" = None ->
      RawBlock.html self sanitize = Ok (tpl "<div class='cdx-block ce-raw'></div>"))
  /\ (forall self d sanitize,
        data self = VDict d ->
        d !! "channelName" = None ->
        TelegramPost.html self sanitize =
          Ok (telegram_widget (VStr "") (default (VStr "") (d !! "messageId"))))
  /\ (forall self d sanitize,
        data self = VDict d ->
        d !! "messageId" = None ->
        TelegramPost.html self sanitize =
          Ok (telegram_widget (default (VStr "") (d !! "channelName")) (VStr "")))
  /\ (forall self d c sanitize,
        data self = VDict d ->
        d !! "caption" = Some (VStr c) ->
        d !! "service" = None ->
        EmbedBlock.html self sanitize =
          Ok (embed_figure (VStr "") "" (shown_caption sanitize c)))
  /\ (forall self d c sanitize,
        data self = VDict d ->
        d !! "caption" = Some (VStr c) ->
        d !! "service" = Some (VStr "youtube") ->
        d !! "embed" = None ->
        EmbedBlock.html self sanitize =
          Ok (embed_figure (VStr "youtube") (youtube_iframe (VStr ""))
                (shown_caption sanitize c)))
  /\ (forall self d c sanitize,
        data self = VDict d ->
        d !! "caption" = Some (VStr c) ->
        d !! "service" = Some (VStr "twitter") ->
        d !! "source" = None ->
        EmbedBlock.html self sanitize =
          Ok (embed_figure (VStr "twitter") (twitter_tweet (VStr ""))
                (shown_caption sanitize c)))
  /\ (forall self d file u c m sanitize,
        data self = VDict d ->
        d !! "caption" = Some (VStr c) ->
        d !! "file" = Some (VDict file) ->
        file !! "mimetype" = Some (VStr m) ->
        startswith m "image" = true ->
        file !! "urls" = Some (VDict u) ->
        d !! "stretched" = None ->
        d !! "withBorder" = None ->
        d !! "withBackground" = None ->
        MediaBlock.html self sanitize =
          Ok (media_figure "cdx-block media-tool media-tool--filled"
                (media_img (default (VStr "") (u !! "full"))
                   (if contains "image/svg" m then ""
                    else media_srcset (default VNone (u !! "normal"))
                                      (default VNone (u !! "medium"))
                                      (default VNone (u !! "small")))
                   (shown_caption sanitize c))
                (shown_caption sanitize c)))
  /\ (forall self d file u c m sanitize,
        data self = VDict d ->
        d !! "caption" = Some (VStr c) ->
        d !! "file" = Some (VDict file) ->
        file !! "mimetype" = Some (VStr m) ->
        startswith m "image" = true ->
        file !! "urls" = Some (VDict u) ->
        u !! "full" = None ->
        MediaBlock.html self sanitize =
          Ok (media_figure
                (media_classes (default (VBool false) (d !! "stretched"))
                               (default (VBool false) (d !! "withBorder"))
                               (default (VBool false) (d !! "withBackground")))
                (media_img (VStr "")
                   (if contains "image/svg" m then ""
                    else media_srcset (default VNone (u !! "normal"))
                                      (default VNone (u !! "medium"))
                                      (default VNone (u !! "small")))
                   (shown_caption sanitize c))
                (shown_caption sanitize c)))
  /\ (forall self d sanitize,
        data self = VDict d ->
        d !! "style" = Some (VStr "ordered") ->
        d !! "items" = None ->
        ListBlock.html self sanitize =
          Ok (tpl "<ol class='cdx-block cdx-list cdx-list--ordered'></ol>"))
  /\ (forall self d sanitize,
        data self = VDict d ->
        d !! "style" = Some (VStr "unordered") ->
        d !! "items" = None ->
        ListBlock.html self sanitize =
          Ok (tpl "<ul class='cdx-block cdx-list cdx-list--unordered'></ul>"))
  /\ (forall self d,
        data self = VDict d ->
        d !! "title" = None ->
        WarningBlock.html self false =
          Ok (warning_element "" (warning_message (default VNone (d !! "message")))))
  /\ (forall self d,
        data self = VDict d ->
        d !! "message" = None ->
        WarningBlock.html self false =
          Ok (warning_element (warning_title (default VNone (d !! "title"))) ""))
  /\ (forall self d n,
        data self = VDict d ->
        default (VInt 1) (d !! "level") = VInt n ->
        1 ≤ n ≤ 6 ->
        d !! "text" = None ->
        HeaderBlock.html self false = Ok (header_element (VInt n) "None"))
  /\ (forall self d tn,
        data self = VDict d ->
        tunes self = VDict tn ->
        tn !! "AlignmentTune" = None ->
        d !! "text" = None ->
        ParagraphBlock.html self false =
          Ok (tpl "<p style='text-align: left' class='cdx-block ce-paragraph'>None</p>"))
  /\ (forall self d c,
        data self = VDict d ->
        d !! "caption" = Some (VStr c) ->
        d !! "text" = None ->
        QuoteBlock.html self false =
          Ok (quote_element (default VNone (d !! "alignment")) (VStr c) "None"
                (quote_cite false (shown_caption false c))))
  /\ (forall self d sanitize,
        data self = VDict d ->
        d !! "code" = None ->
        CodeBlock.html self sanitize =
          Ok (tpl "<div class='cdx-block ce-code'><pre>None</pre></div>")).
Proof.
  repeat apply conj.
  - intros self d sanitize Hd Hk. rewrite (raw_html self d sanitize Hd), Hk. reflexivity.
  - intros self d sanitize Hd Hk. rewrite (telegram_html self d sanitize Hd), Hk.
    reflexivity.
  - intros self d sanitize Hd Hk. rewrite (telegram_html self d sanitize Hd), Hk.
    reflexivity.
  - intros self d c sanitize Hd Hc Hk.
    rewrite (embed_html self d c (VStr "") sanitize Hd Hc) by (rewrite Hk; reflexivity).
    reflexivity.
  - intros self d c sanitize Hd Hc Hs Hk.
    rewrite (embed_html self d c (VStr "youtube") sanitize Hd Hc)
      by (rewrite Hs; reflexivity).
    rewrite Hk. reflexivity.
  - intros self d c sanitize Hd Hc Hs Hk.
    rewrite (embed_html self d c (VStr "twitter") sanitize Hd Hc)
      by (rewrite Hs; reflexivity).
    rewrite Hk. reflexivity.
  - intros self d file u c m sanitize Hd Hc Hf Hm Himg Hu Hs Hb Hg.
    rewrite (media_html_image self d file u c m sanitize Hd Hc Hf Hm Himg Hu), Hs, Hb, Hg.
    reflexivity.
  - intros self d file u c m sanitize Hd Hc Hf Hm Himg Hu Hk.
    rewrite (media_html_image self d file u c m sanitize Hd Hc Hf Hm Himg Hu), Hk.
    reflexivity.
  - intros self d sanitize Hd Hs Hk.
    rewrite (list_html_no_items self d "ordered" sanitize Hd Hs (or_introl eq_refl) Hk).
    reflexivity.
  - intros self d sanitize Hd Hs Hk.
    rewrite (list_html_no_items self d "unordered" sanitize Hd Hs (or_intror eq_refl) Hk).
    reflexivity.
  - intros self d Hd Hk. rewrite (warning_html_off self d Hd), Hk. reflexivity.
  - intros self d Hd Hk. rewrite (warning_html_off self d Hd), Hk. reflexivity.
  - intros self d n Hd Hl Hn Hk.
    rewrite (header_html self d n VNone false Hd Hl Hn) by (rewrite Hk; reflexivity).
    reflexivity.
  - intros self d tn Hd Htn Hal Hk.
    rewrite (paragraph_html_off self d tn Hd Htn Hal), Hk. reflexivity.
  - intros self d c Hd Hc Hk.
    rewrite (quote_html self d c VNone false Hd Hc) by (rewrite Hk; reflexivity).
    reflexivity.
  - intros self d sanitize Hd Hk. unfold CodeBlock.html, CodeBlock.text.
    py_run. reflexivity.
Qed.
End Properties.

(** * The properties at the example blocks *)

(** A hypothesis of a theorem at a concrete block: a lookup, a bound, the
    difference of two values. *)
Ltac concrete :=
  first
    [ reflexivity
    | lia
    | discriminate
    | (intros ? [= <-]; lia)
    | (left; reflexivity)
    | (right; reflexivity) ].

(** The code [<script>1</script>] under both values of the flag *)
Lemma C4_script_block :
  @CodeBlock.html text_runtime (block "code" script_data) true
  = Ok (tpl "<div class='cdx-block ce-code'><pre><script>1</script></pre></div>")
  /\ @CodeBlock.html text_runtime (block "code" script_data) false
     = Ok (tpl "<div class='cdx-block ce-code'><pre><script>1</script></pre></div>").
Proof.
  destruct (@C4_code_is_never_sanitized text_runtime) as (_ & _ & Hscript).
  split; apply (Hscript _ script_data); concrete.
Defined.

(** The post [chan/12], with and without a caption *)
Lemma C9_telegram_block :
  @TelegramPost.html text_runtime (block "telegramPost" telegram_data) true
  = Ok (tpl "<div class='cdx-block telegram-post'><script async src='https://telegram.org/js/telegram-widget.js?22' data-telegram-post='chan/12' data-width='100%'></script></div>")
  /\ @TelegramPost.html text_runtime (block "telegramPost" telegram_data) true
     = @TelegramPost.html text_runtime
         (block "telegramPost" (<["caption" := VStr "cap"]> telegram_data)) false
  /\ @TelegramPost.html text_runtime (block "telegramPost" telegram_data) false
     = @TelegramPost.html text_runtime
         (block "telegramPost" (delete "caption" telegram_data)) true.
Proof.
  destruct (@C9_telegram_post_address text_runtime) as (Hout & Hsame & Hcaption).
  repeat apply conj.
  - rewrite (Hout _ telegram_data) by concrete. reflexivity.
  - apply (Hcaption _ _ telegram_data (VStr "cap")); concrete.
  - apply (Hsame _ _ telegram_data (delete "caption" telegram_data)); concrete.
Defined.

(** A paragraph with the tune [{"AlignmentTune": {}}], and one without tunes *)
Lemma C10_paragraph_blocks :
  @ParagraphBlock.html text_runtime (tuned_block "paragraph" paragraph_data empty_tune) true
  = Raise (KeyError "alignment")
  /\ @ParagraphBlock.html text_runtime (block "paragraph" paragraph_data) true
     = Ok (tpl "<p style='text-align: left' class='cdx-block ce-paragraph'>Hi</p>").
Proof.
  destruct (@C10_alignment_tune_without_alignment text_runtime) as (Hkey & Hleft).
  split.
  - apply (Hkey _ empty_tune ∅); concrete.
  - rewrite (Hleft _ ∅ paragraph_data "Hi") by concrete. reflexivity.
Defined.

(** A youtube embed and a vimeo embed *)
Lemma C7_embed_blocks :
  @EmbedBlock.html text_runtime (block "embed" youtube_data) true
  = Ok (tpl "<div class='cdx-block embed-tool embed-tool-youtube'><figure><div class='embed-tool__embed'><iframe src='https://www.youtube.com/embed/x' width='100%' style='aspect-ratio: 16/9' frameborder='0' allow='accelerometer; autoplay; clipboard-write; encrypted-media; gyroscope; picture-in-picture; web-share' allowfullscreen></iframe></div><figcaption class='embed-tool__caption'>cap</figcaption></figure></div>")
  /\ @EmbedBlock.html text_runtime (block "embed" vimeo_data) true
     = Ok (tpl "<div class='cdx-block embed-tool embed-tool-vimeo'><figure><div class='embed-tool__embed'></div><figcaption class='embed-tool__caption'>cap</figcaption></figure></div>").
Proof.
  destruct (@C7_embed_services text_runtime) as (Hyoutube & Hother).
  split.
  - rewrite (Hyoutube _ youtube_data "cap<br>") by concrete. reflexivity.
  - rewrite (Hother _ vimeo_data "cap<br>" (VStr "vimeo")) by concrete. reflexivity.
Defined.

(** Two items in an ordered and in an unordered list, a number among the
    items, and the style [checklist] *)
Lemma C3_list_blocks :
  @ListBlock.html text_runtime (block "list" ordered_data) true
  = Ok (tpl "<ol class='cdx-block cdx-list cdx-list--ordered'><li>one</li><li>two</li></ol>")
  /\ @ListBlock.html text_runtime (block "list" unordered_data) true
     = Ok (tpl "<ul class='cdx-block cdx-list cdx-list--unordered'><li>one</li><li>two</li></ul>")
  /\ @ListBlock.html text_runtime (block "list" mixed_items_data) false
     = Ok (tpl "<ul class='cdx-block cdx-list cdx-list--unordered'><li>one</li><li>2</li></ul>")
  /\ exists msg,
       @ListBlock.html text_runtime (block "list" checklist_data) true
       = Raise (EditorJsParseError msg).
Proof.
  destruct (@C3_list_items_and_styles text_runtime) as (Hol & Hul & Hoff & Hbad).
  repeat apply conj.
  - rewrite (Hol _ ordered_data ["one"; "two"]) by concrete. reflexivity.
  - rewrite (Hul _ unordered_data ["one"; "two"]) by concrete. reflexivity.
  - rewrite (Hoff _ mixed_items_data "unordered" [VStr "one"; VInt 2]) by concrete.
    reflexivity.
  - apply (Hbad _ checklist_data (VStr "checklist")); concrete.
Defined.

(** The quote of the specification under both values of the flag, and a quote whose
    caption is [<br>] *)
Lemma C5_quote_blocks :
  @QuoteBlock.html text_runtime (block "quote" quote_data) false
  = Ok (tpl "<div class='cdx-block ce-quote ce-quote-with-align-left ce-quote-with-caption'>      <blockquote class='ce-quote__blockquote'>Hi<br><cite class='ce-quote__caption'>cap</cite>      </blockquote></div>")
  /\ @QuoteBlock.html text_runtime (block "quote" quote_data) true
     = Ok (tpl "<div class='cdx-block ce-quote ce-quote-with-align-left ce-quote-with-caption'>      <blockquote class='ce-quote__blockquote'>Hi<br><cite class='ce-quote__caption'>cap</cite>      </blockquote></div>")
  /\ @QuoteBlock.html text_runtime (block "quote" quote_br_caption_data) true
     = Ok (tpl "<div class='cdx-block ce-quote ce-quote-with-align-left ce-quote-with-caption'>      <blockquote class='ce-quote__blockquote'>Hi      </blockquote></div>").
Proof.
  destruct (@C5_quote_caption_trimmed text_runtime) as (Hcap & Hempty).
  split; [| split].
  - apply (Hcap _ quote_data); concrete.
  - apply (Hcap _ quote_data); concrete.
  - rewrite (Hempty _ quote_br_caption_data "<br>" (VStr "Hi")) by concrete.
    reflexivity.
Defined.

(** Headers of level 3 with a text, of the default level without one, and of
    level 7 *)
Lemma C2_header_blocks :
  @HeaderBlock.html text_runtime (block "header" h3_data) true
  = Ok (tpl "<h3 class='cdx-block ce-header'>Hi</h3>")
  /\ @HeaderBlock.html text_runtime (block "header" ∅) false
     = Ok (tpl "<h1 class='cdx-block ce-header'>None</h1>")
  /\ @HeaderBlock.html text_runtime (block "header" h7_data) true
     = Raise (EditorJsParseError "`7` is not a valid header level.").
Proof.
  destruct (@C2_header_levels text_runtime) as (Hstr & Hoff & Hbad).
  split; [| split].
  - rewrite (Hstr _ h3_data 3 "Hi") by concrete. reflexivity.
  - rewrite (Hoff _ ∅ 1) by concrete. reflexivity.
  - rewrite (Hbad _ h7_data (VInt 7)) by concrete. reflexivity.
Defined.

(** A header of level 3 without text under the sanitize flag, and a header
    of level [true] *)
Lemma C2_header_without_text_or_with_level_true :
  @HeaderBlock.html text_runtime (block "header" h3_no_text_data) true = Raise TypeError
  /\ @HeaderBlock.html text_runtime (block "header" htrue_data) false
     = Ok (tpl "<hTrue class='cdx-block ce-header'>Hi</hTrue>").
Proof. split; reflexivity. Qed.

(** The image of the specification, and the same as an SVG *)
Lemma C6_image_blocks :
  @MediaBlock.html text_runtime (block "media" png_data) true
  = Ok (tpl "<div class='cdx-block media-tool media-tool--filled'><figure>  <div class='media-tool__media'>     <img class='media-tool__media-picture' src='f' srcset='n 1080w, m 720w, s 480w' alt='cap' />  </div><figcaption class='media-tool__caption' data-placeholder='cap'>cap</figcaption></figure></div>")
  /\ @MediaBlock.html text_runtime (block "media" svg_data) true
     = Ok (tpl "<div class='cdx-block media-tool media-tool--filled'><figure>  <div class='media-tool__media'>     <img class='media-tool__media-picture' src='f' alt='cap' />  </div><figcaption class='media-tool__caption' data-placeholder='cap'>cap</figcaption></figure></div>").
Proof.
  destruct (@C6_media_srcset text_runtime) as (Hsrcset & Hsvg).
  split.
  - rewrite (Hsrcset _ png_data png_file urls4 "cap<br>" "image/png" "f" "n" "m" "s")
      by concrete.
    reflexivity.
  - rewrite (Hsvg _ svg_data svg_file urls4 "cap<br>" "image/svg+xml") by concrete.
    reflexivity.
Defined.

(** The image of the specification without a caption, and a mimetype that holds
    [image/svg] after another first character *)
Lemma C6_image_without_caption :
  @MediaBlock.html text_runtime (block "media" png_no_caption_data) false
  = Raise AttributeError
  /\ @MediaBlock.html text_runtime (block "media" odd_data) false
     = Ok (tpl "<div class='cdx-block media-tool media-tool--filled'><figure>  <div class='media-tool__media'>  </div><figcaption class='media-tool__caption' data-placeholder='cap'>cap</figcaption></figure></div>").
Proof. split; reflexivity. Qed.

(** The fields of C1 that may be missing, each at a block without it *)
Lemma C1_blocks_without_a_field :
  @RawBlock.html text_runtime (block "raw" ∅) true
  = Ok (tpl "<div class='cdx-block ce-raw'></div>")
  /\ @TelegramPost.html text_runtime (block "telegramPost" ∅) true
     = Ok (tpl "<div class='cdx-block telegram-post'><script async src='https://telegram.org/js/telegram-widget.js?22' data-telegram-post='/' data-width='100%'></script></div>")
  /\ @TelegramPost.html text_runtime (block "telegramPost" {[ "channelName" := VStr "chan" ]}) true
     = Ok (tpl "<div class='cdx-block telegram-post'><script async src='https://telegram.org/js/telegram-widget.js?22' data-telegram-post='chan/' data-width='100%'></script></div>")
  /\ @EmbedBlock.html text_runtime (block "embed" no_service_data) true
     = Ok (tpl "<div class='cdx-block embed-tool embed-tool-'><figure><div class='embed-tool__embed'></div><figcaption class='embed-tool__caption'>cap</figcaption></figure></div>")
  /\ @EmbedBlock.html text_runtime (block "embed" youtube_no_embed_data) true
     = Ok (tpl "<div class='cdx-block embed-tool embed-tool-youtube'><figure><div class='embed-tool__embed'><iframe src='' width='100%' style='aspect-ratio: 16/9' frameborder='0' allow='accelerometer; autoplay; clipboard-write; encrypted-media; gyroscope; picture-in-picture; web-share' allowfullscreen></iframe></div><figcaption class='embed-tool__caption'>cap</figcaption></figure></div>")
  /\ @EmbedBlock.html text_runtime (block "embed" twitter_no_source_data) true
     = Ok (tpl "<div class='cdx-block embed-tool embed-tool-twitter'><figure><div class='embed-tool__embed'><blockquote class='twitter-tweet'><blockquote class='twitter-tweet'><a href=''></a></blockquote><script async src='https://platform.twitter.com/widgets.js' charset='utf-8'></script></div><figcaption class='embed-tool__caption'>cap</figcaption></figure></div>")
  /\ @MediaBlock.html text_runtime (block "media" png_data) true
     = Ok (tpl "<div class='cdx-block media-tool media-tool--filled'><figure>  <div class='media-tool__media'>     <img class='media-tool__media-picture' src='f' srcset='n 1080w, m 720w, s 480w' alt='cap' />  </div><figcaption class='media-tool__caption' data-placeholder='cap'>cap</figcaption></figure></div>")
  /\ @MediaBlock.html text_runtime (block "media" svg_no_full_data) true
     = Ok (tpl "<div class='cdx-block media-tool media-tool--filled'><figure>  <div class='media-tool__media'>     <img class='media-tool__media-picture' src='' alt='cap' />  </div><figcaption class='media-tool__caption' data-placeholder='cap'>cap</figcaption></figure></div>")
  /\ @ListBlock.html text_runtime (block "list" {[ "style" := VStr "ordered" ]}) true
     = Ok (tpl "<ol class='cdx-block cdx-list cdx-list--ordered'></ol>")
  /\ @ListBlock.html text_runtime (block "list" {[ "style" := VStr "unordered" ]}) true
     = Ok (tpl "<ul class='cdx-block cdx-list cdx-list--unordered'></ul>")
  /\ @WarningBlock.html text_runtime (block "warning" {[ "message" := VStr "msg" ]}) false
     = Ok (tpl "<div class='cdx-block ce-warning'>  <blockquote class='ce-warning__blockquote'>    <div class='ce-warning__message'>msg</div>  </blockquote></div>")
  /\ @WarningBlock.html text_runtime (block "warning" {[ "title" := VStr "ttl" ]}) false
     = Ok (tpl "<div class='cdx-block ce-warning'>  <blockquote class='ce-warning__blockquote'>    <b class='ce-warning__title'>ttl</b>  </blockquote></div>")
  /\ @HeaderBlock.html text_runtime (block "header" h3_no_text_data) false
     = Ok (tpl "<h3 class='cdx-block ce-header'>None</h3>")
  /\ @ParagraphBlock.html text_runtime (block "paragraph" ∅) false
     = Ok (tpl "<p style='text-align: left' class='cdx-block ce-paragraph'>None</p>")
  /\ @QuoteBlock.html text_runtime (block "quote" quote_no_text_data) false
     = Ok (tpl "<div class='cdx-block ce-quote ce-quote-with-align-left ce-quote-with-caption'>      <blockquote class='ce-quote__blockquote'>None<cite class='ce-quote__caption'>cap</cite>      </blockquote></div>")
  /\ @CodeBlock.html text_runtime (block "code" ∅) true
     = Ok (tpl "<div class='cdx-block ce-code'><pre>None</pre></div>").
Proof.
  destruct (@C1_missing_fields text_runtime)
    as (Hraw & Hchan & Hmsg & Hservice & Hembed & Hsource & Hflags & Hfull
        & Hol & Hul & Htitle & Hmessage & Hheader & Hparagraph & Hquote & Hcode).
  repeat apply conj.
  - apply (Hraw _ ∅); concrete.
  - rewrite (Hchan _ ∅) by concrete. reflexivity.
  - rewrite (Hmsg _ {[ "channelName" := VStr "chan" ]}) by concrete. reflexivity.
  - rewrite (Hservice _ no_service_data "cap<br>") by concrete. reflexivity.
  - rewrite (Hembed _ youtube_no_embed_data "cap<br>") by concrete. reflexivity.
  - rewrite (Hsource _ twitter_no_source_data "cap<br>") by concrete. reflexivity.
  - rewrite (Hflags _ png_data png_file urls4 "cap<br>" "image/png") by concrete.
    reflexivity.
  - rewrite (Hfull _ svg_no_full_data svg_file_no_full ∅ "cap<br>" "image/svg+xml")
      by concrete.
    reflexivity.
  - apply (Hol _ {[ "style" := VStr "ordered" ]}); concrete.
  - apply (Hul _ {[ "style" := VStr "unordered" ]}); concrete.
  - rewrite (Htitle _ {[ "message" := VStr "msg" ]}) by concrete. reflexivity.
  - rewrite (Hmessage _ {[ "title" := VStr "ttl" ]}) by concrete. reflexivity.
  - rewrite (Hheader _ h3_no_text_data 3) by concrete. reflexivity.
  - apply (Hparagraph _ ∅ ∅); concrete.
  - rewrite (Hquote _ quote_no_text_data "cap") by concrete. reflexivity.
  - apply (Hcode _ ∅); concrete.
Defined.

(** Blocks without a caption or a mimetype, and a header without a text *)
Lemma C1_blocks_that_fail :
  @QuoteBlock.html text_runtime (block "quote" quote_no_caption_data) false
  = Raise AttributeError
  /\ @EmbedBlock.html text_runtime (block "embed" youtube_no_caption_data) false
     = Raise AttributeError
  /\ @MediaBlock.html text_runtime (block "media" png_no_caption_data) false
     = Raise AttributeError
  /\ @MediaBlock.html text_runtime (block "media" no_mimetype_data) false
     = Raise AttributeError
  /\ @HeaderBlock.html text_runtime (block "header" h3_no_text_data) true
     = Raise TypeError
  /\ @HeaderBlock.html text_runtime (block "header" h3_no_text_data) false
     = Ok (tpl "<h3 class='cdx-block ce-header'>None</h3>").
Proof. repeat apply conj; reflexivity. Qed.

(** * Further properties *)

(** ** The trimming of a caption *)

Lemma length_append (a b : string) :
  String.length (a +:+ b) = (String.length a + String.length b)%nat.
Proof.
  induction a as [|x a IH]; [reflexivity |].
  change (S (String.length (a +:+ b)) = S (String.length a + String.length b)).
  now rewrite IH.
Qed.

Lemma substring_all (s : string) : substring 0 (String.length s) s = s.
Proof. induction s as [|x s IH]; [reflexivity |]. cbn. now rewrite IH. Qed.

Lemma substring_append_l (a b : string) :
  substring 0 (String.length a) (a +:+ b) = a.
Proof.
  induction a as [|x a IH]; [now destruct b |].
  change (String x (substring 0 (String.length a) (a +:+ b)) = String x a).
  now rewrite IH.
Qed.

Lemma substring_append_r (a b : string) (n : nat) :
  substring (String.length a) n (a +:+ b) = substring 0 n b.
Proof. induction a as [|x a IH]; [reflexivity | exact IH]. Qed.

Lemma substring_split (s : string) (i : nat) :
  (i <= String.length s)%nat ->
  substring 0 i s +:+ substring i (String.length s - i) s = s.
Proof.
  revert i. induction s as [|x s IH]; intros i Hi.
  - destruct i; [reflexivity | cbn in Hi; lia].
  - destruct i as [|i].
    + change (substring 0 (String.length (String x s)) (String x s) = String x s).
      apply substring_all.
    + cbn in Hi.
      change (String x (substring 0 i s +:+ substring i (String.length s - i) s)
              = String x s).
      rewrite IH by lia. reflexivity.
Qed.

Lemma endswith_append (s p : string) : endswith (s +:+ p) p = true.
Proof.
  unfold endswith. rewrite length_append.
  replace (String.length s + String.length p - String.length p)%nat
    with (String.length s) by lia.
  rewrite substring_append_r, substring_all, String.eqb_refl.
  rewrite andb_true_r. apply Nat.leb_le. lia.
Qed.

Lemma drop_last_append (s p : string) : drop_last (String.length p) (s +:+ p) = s.
Proof.
  unfold drop_last. rewrite length_append.
  replace (String.length s + String.length p - String.length p)%nat
    with (String.length s) by lia.
  apply substring_append_l.
Qed.

Lemma endswith_inv (s p : string) :
  endswith s p = true -> s = drop_last (String.length p) s +:+ p.
Proof.
  unfold endswith, drop_last. intros Hs.
  apply andb_true_iff in Hs as [Hlen Heq].
  apply Nat.leb_le in Hlen. apply String.eqb_eq in Heq.
  pose proof (substring_split s (String.length s - String.length p)) as Hsplit.
  replace (String.length s - (String.length s - String.length p))%nat
    with (String.length p) in Hsplit by lia.
  rewrite Heq in Hsplit. symmetry. apply Hsplit. lia.
Qed.

Lemma strip_br_append (a : string) : strip_br (a +:+ "<br>") = a.
Proof.
  unfold strip_br. rewrite endswith_append. apply (drop_last_append a "<br>").
Qed.

(** X1: the statement that trims a caption removes one trailing [<br>] and no
    more: [a<br>] becomes [a], whatever [a] ends with, and a caption that
    does not end with [<br>] is left as it is.  Either way the caption is the
    outcome, followed by [<br>] when one was removed. *)
Theorem X1_strip_br_one_trailing_break :
  (forall a, strip_br (a +:+ "<br>") = a)
  /\ (forall a, strip_br (a +:+ "<br>" +:+ "<br>") = a +:+ "<br>")
  /\ (forall s, (forall a, s <> a +:+ "<br>") -> strip_br s = s)
  /\ (forall s, s = strip_br s +:+ "<br>" \/ (strip_br s = s /\ forall a, s <> a +:+ "<br>")).
Proof.
  pose proof strip_br_append as Hone.
  assert (Hkeep : forall s, endswith s "<br>" = false -> forall a, s <> a +:+ "<br>").
  { intros s Hs a ->. now rewrite endswith_append in Hs. }
  repeat apply conj.
  - exact Hone.
  - intros a. rewrite <- append_assoc. apply Hone.
  - intros s Hs. unfold strip_br. destruct (endswith s "<br>") eqn:He; [| reflexivity].
    destruct (Hs _ (endswith_inv s "<br>" He)).
  - intros s. unfold strip_br. destruct (endswith s "<br>") eqn:He.
    + left. exact (endswith_inv s "<br>" He).
    + right. split; [reflexivity | exact (Hkeep s He)].
Qed.

(** ** The replacement of line breaks in [_clean] *)





(** ** The blocks on data of the wrong shape *)

Section FurtherProperties.
Context `{rt : PyRuntime}.

(** X2: with the sanitize flag off, a caption [c<br>] is shown as [c] by the
    embed, quote and image blocks: in the [figcaption], in the [cite], and in
    the [figcaption], [alt] and placeholder of the image. *)
Theorem X2_trailing_break_of_a_caption_is_not_shown :
  (forall self d c service,
      data self = VDict d ->
      d !! "caption" = Some (VStr (c +:+ "<br>")) ->
      default (VStr "") (d !! "service") = service ->
      EmbedBlock.html self false =
        Ok (embed_figure service
              (if py_eq_str service "youtube"
               then youtube_iframe (default (VStr "") (d !! "embed"))
               else if py_eq_str service "twitter"
                    then twitter_tweet (default (VStr "") (d !! "source"))
                    else "")
              c))
  /\ (forall self d c,
        data self = VDict d ->
        d !! "caption" = Some (VStr (c +:+ "<br>")) ->
        QuoteBlock.html self false =
          Ok (quote_element (default VNone (d !! "alignment")) (VStr (c +:+ "<br>"))
                (py_str (default VNone (d !! "text")))
                (if String.eqb c "" then ""
                 else tpl "<cite class='ce-quote__caption'>" +:+ c +:+ "</cite>")))
  /\ (forall self d file u c m,
        data self = VDict d ->
        d !! "caption" = Some (VStr (c +:+ "<br>")) ->
        d !! "file" = Some (VDict file) ->
        file !! "mimetype" = Some (VStr m) ->
        startswith m "image" = true ->
        file !! "urls" = Some (VDict u) ->
        MediaBlock.html self false =
          Ok (media_figure
                (media_classes (default (VBool false) (d !! "stretched"))
                               (default (VBool false) (d !! "withBorder"))
                               (default (VBool false) (d !! "withBackground")))
                (media_img (default (VStr "") (u !! "full"))
                   (if contains "image/svg" m then ""
                    else media_srcset (default VNone (u !! "normal"))
                                      (default VNone (u !! "medium"))
                                      (default VNone (u !! "small")))
                   c)
                c)).
Proof.
  repeat apply conj.
  - intros self d c service Hd Hc Hs.
    rewrite (embed_html self d (c +:+ "<br>") service false Hd Hc Hs).
    unfold shown_caption, sanitized. rewrite strip_br_append. reflexivity.
  - intros self d c Hd Hc.
    rewrite (quote_html self d (c +:+ "<br>") (default VNone (d !! "text")) false Hd Hc)
      by reflexivity.
    unfold shown_caption, sanitized, quote_cite. rewrite strip_br_append.
    cbn [truthy]. destruct (String.eqb c ""); reflexivity.
  - intros self d file u c m Hd Hc Hf Hm Himg Hu.
    rewrite (media_html_image self d file u (c +:+ "<br>") m false Hd Hc Hf Hm Himg Hu).
    unfold shown_caption, sanitized. rewrite strip_br_append. reflexivity.
Qed.

(** X4: when the [data] of a block record is present and is no mapping, every
    block but the delimiter raises [AttributeError] (the paragraph once its
    alignment is settled); the delimiter, which reads no data, renders. *)
Theorem X4_data_that_is_no_mapping (self : t) (v : value) (sanitize : bool) :
  _data self !! "data" = Some v ->
  (forall m, v <> VDict m) ->
  CodeBlock.html self sanitize = Raise AttributeError
  /\ HeaderBlock.html self sanitize = Raise AttributeError
  /\ WarningBlock.html self sanitize = Raise AttributeError
  /\ QuoteBlock.html self sanitize = Raise AttributeError
  /\ ListBlock.html self sanitize = Raise AttributeError
  /\ RawBlock.html self sanitize = Raise AttributeError
  /\ EmbedBlock.html self sanitize = Raise AttributeError
  /\ MediaBlock.html self sanitize = Raise AttributeError
  /\ TelegramPost.html self sanitize = Raise AttributeError
  /\ (forall tn, tunes self = VDict tn -> tn !! "AlignmentTune" = None ->
      ParagraphBlock.html self sanitize = Raise AttributeError)
  /\ DelimiterBlock.html self sanitize
     = Ok (tpl "<div class='cdx-block ce-delimiter'><hr/></div>").
Proof.
  intros Hv Hm.
  assert (Hd : data self = v) by (unfold data; rewrite Hv; reflexivity).
  assert (Hget : forall k dflt, py_get v k dflt = Raise AttributeError).
  { intros k dflt. destruct v; try reflexivity. now destruct (Hm m). }
  repeat apply conj.
  - unfold CodeBlock.html, CodeBlock.text. rewrite Hd, Hget. reflexivity.
  - unfold HeaderBlock.html, HeaderBlock.level. rewrite Hd, Hget. reflexivity.
  - unfold WarningBlock.html, WarningBlock.title. rewrite Hd, Hget. reflexivity.
  - unfold QuoteBlock.html, QuoteBlock.caption. rewrite Hd, Hget. reflexivity.
  - unfold ListBlock.html, ListBlock.style. rewrite Hd, Hget. reflexivity.
  - unfold RawBlock.html. rewrite Hd, Hget. reflexivity.
  - unfold EmbedBlock.html, EmbedBlock.caption. rewrite Hd, Hget. reflexivity.
  - unfold MediaBlock.html, MediaBlock.file_url. rewrite Hd, Hget. reflexivity.
  - unfold TelegramPost.html, TelegramPost.channelName. rewrite Hd, Hget. reflexivity.
  - intros tn Htn Hal. unfold ParagraphBlock.html, ParagraphBlock.text.
    rewrite Htn. cbn [py_get]. rewrite Hal. cbn [default from_option Datatypes.id].
    rewrite Hd, Hget. reflexivity.
  - reflexivity.
Qed.
End FurtherProperties.

(** X5: with the sanitize flag off, the header, paragraph, warning, quote,
    list and embed blocks never call the sanitizer: their outcome is the same
    under any other sanitizer. *)
Theorem X5_no_sanitizer_when_the_flag_is_off (rt : PyRuntime)
    (clean : list string -> list string -> string -> string) (self : t) :
  @HeaderBlock.html (with_sanitizer clean rt) self false = @HeaderBlock.html rt self false
  /\ @ParagraphBlock.html (with_sanitizer clean rt) self false
     = @ParagraphBlock.html rt self false
  /\ @WarningBlock.html (with_sanitizer clean rt) self false
     = @WarningBlock.html rt self false
  /\ @QuoteBlock.html (with_sanitizer clean rt) self false = @QuoteBlock.html rt self false
  /\ @ListBlock.html (with_sanitizer clean rt) self false = @ListBlock.html rt self false
  /\ @EmbedBlock.html (with_sanitizer clean rt) self false = @EmbedBlock.html rt self false.
Proof. repeat apply conj; reflexivity. Qed.

(** X6: the code, raw, telegram and delimiter blocks never call the
    sanitizer and never read the sanitize flag: their outcome is the same
    under any other sanitizer and the other value of the flag; the raw block
    puts its [html] between the tags of its [div] as it is. *)
Theorem X6_blocks_that_are_never_sanitized (rt : PyRuntime)
    (clean : list string -> list string -> string -> string) (self : t)
    (sanitize sanitize' : bool) :
  @CodeBlock.html (with_sanitizer clean rt) self sanitize = @CodeBlock.html rt self sanitize'
  /\ @RawBlock.html (with_sanitizer clean rt) self sanitize = @RawBlock.html rt self sanitize'
  /\ @TelegramPost.html (with_sanitizer clean rt) self sanitize
     = @TelegramPost.html rt self sanitize'
  /\ DelimiterBlock.html self sanitize = DelimiterBlock.html self sanitize'
  /\ (forall d html,
        data self = VDict d ->
        d !! "html" = Some (VStr html) ->
        @RawBlock.html rt self sanitize
        = Ok (tpl "<div class='cdx-block ce-raw'>" +:+ html +:+ "</div>")).
Proof.
  repeat apply conj; try reflexivity.
  intros d html Hd Hh. rewrite (raw_html self d sanitize Hd), Hh. reflexivity.
Qed.

(** ** Warnings, text fields, and the branches of embed and media blocks *)

Section MoreBlocks.
Context `{PyRuntime}.

Lemma warning_html_str (self : t) (d : dict) (title message : string) (sanitize : bool) :
  data self = VDict d ->
  d !! "title" = Some (VStr title) ->
  d !! "message" = Some (VStr message) ->
  WarningBlock.html self sanitize =
    Ok (warning_element (warning_title (VStr (sanitized sanitize title)))
                        (warning_message (VStr (sanitized sanitize message)))).
Proof.
  intros Hd Ht Hm. unfold WarningBlock.html, WarningBlock.title, WarningBlock.message.
  py_run. rewrite !sanitize_if_str. py_run. reflexivity.
Qed.

(** X7: a warning with a str title and a str message renders the title in a
    [b] element and the message in a [div], inside the blockquote; each of
    the two is dropped when its text, sanitized if the flag is on, is
    empty. *)
Theorem X7_warning_elements (self : t) (d : dict) (title message : string)
    (sanitize : bool) :
  data self = VDict d ->
  d !! "title" = Some (VStr title) ->
  d !! "message" = Some (VStr message) ->
  WarningBlock.html self sanitize =
    Ok (tpl "<div class='cdx-block ce-warning'>  <blockquote class='ce-warning__blockquote'>"
        +:+ (if String.eqb (sanitized sanitize title) "" then ""
             else tpl "    <b class='ce-warning__title'>" +:+ sanitized sanitize title
                  +:+ "</b>")
        +:+ (if String.eqb (sanitized sanitize message) "" then ""
             else tpl "    <div class='ce-warning__message'>"
                  +:+ sanitized sanitize message +:+ "</div>")
        +:+ "  </blockquote></div>").
Proof.
  intros Hd Ht Hm. rewrite (warning_html_str self d title message sanitize Hd Ht Hm).
  unfold warning_element, warning_title, warning_message. cbn [truthy py_str].
  destruct (String.eqb (sanitized sanitize title) "");
    destruct (String.eqb (sanitized sanitize message) ""); reflexivity.
Qed.

(** X8: with the sanitize flag on, a text field that is missing or is no str
    makes the block raise [TypeError]: the text of a header, of a paragraph
    and of a quote, the title and the message of a warning. *)
Theorem X8_sanitizing_needs_str_text (self : t) (d : dict) (v : value) :
  data self = VDict d ->
  (forall s, v <> VStr s) ->
  (forall n, default (VInt 1) (d !! "level") = VInt n -> 1 ≤ n ≤ 6 ->
     default VNone (d !! "text") = v ->
     HeaderBlock.html self true = Raise TypeError)
  /\ (forall tn, tunes self = VDict tn -> tn !! "AlignmentTune" = None ->
        default VNone (d !! "text") = v ->
        ParagraphBlock.html self true = Raise TypeError)
  /\ (forall c, d !! "caption" = Some (VStr c) ->
        default VNone (d !! "text") = v ->
        QuoteBlock.html self true = Raise TypeError)
  /\ (default VNone (d !! "title") = v ->
      WarningBlock.html self true = Raise TypeError)
  /\ (forall title, d !! "title" = Some (VStr title) ->
        default VNone (d !! "message") = v ->
        WarningBlock.html self true = Raise TypeError).
Proof.
  intros Hd Hv.
  assert (Hraise : sanitize_if true v = Raise TypeError)
    by exact (sanitize_if_on_not_str v Hv).
  repeat apply conj.
  - intros n Hl Hn Ht. exact (header_html_text_not_str self d n v Hd Hl Hn Ht Hv).
  - intros tn Htn Hal Ht. unfold ParagraphBlock.html, ParagraphBlock.text.
    rewrite Htn, Hd. cbn [py_get mbind result_bind]. rewrite Hal, Ht.
    cbn [default from_option Datatypes.id py_getitem].
    rewrite lookup_singleton_eq. cbn [mbind result_bind]. rewrite Hraise. reflexivity.
  - intros c Hc Ht.
    unfold QuoteBlock.html, QuoteBlock.caption, QuoteBlock.alignment, QuoteBlock.text.
    rewrite Hd. cbn [py_get mbind result_bind]. rewrite Hc, Ht.
    cbn [default from_option Datatypes.id]. rewrite sanitize_if_str.
    cbn [mbind result_bind strip_caption].
    destruct (truthy (VStr (strip_br (sanitized true c))));
      [rewrite sanitize_if_str |]; cbn [mbind result_bind]; rewrite Hraise; reflexivity.
  - intros Ht. exact (warning_html_title_not_str self d v Hd Ht Hv).
  - intros title Htitle Hm. unfold WarningBlock.html, WarningBlock.title, WarningBlock.message.
    rewrite Hd. cbn [py_get mbind result_bind]. rewrite Htitle, Hm.
    cbn [default from_option Datatypes.id]. rewrite sanitize_if_str.
    cbn [mbind result_bind]. rewrite Hraise. reflexivity.
Qed.

(** X9: an embed block with a str caption and the service [twitter] renders,
    inside the figure, a [blockquote] of class [twitter-tweet] opened twice
    and closed once around a link to [source], and the script of the widget;
    it renders no [iframe]. *)
Theorem X9_embed_twitter (self : t) (d : dict) (c : string) (sanitize : bool) :
  data self = VDict d ->
  d !! "caption" = Some (VStr c) ->
  d !! "service" = Some (VStr "twitter") ->
  EmbedBlock.html self sanitize =
    Ok (tpl "<div class='cdx-block embed-tool embed-tool-twitter'><figure><div class='embed-tool__embed'>"
        +:+ tpl "<blockquote class='twitter-tweet'><blockquote class='twitter-tweet'><a href='"
        +:+ py_str (default (VStr "") (d !! "source"))
        +:+ tpl "'></a></blockquote><script async src='https://platform.twitter.com/widgets.js' charset='utf-8'></script>"
        +:+ tpl "</div><figcaption class='embed-tool__caption'>"
        +:+ strip_br (sanitized sanitize c) +:+ "</figcaption></figure></div>").
Proof.
  intros Hd Hc Hs.
  rewrite (embed_html self d c (VStr "twitter") sanitize Hd Hc)
    by (rewrite Hs; reflexivity).
  change (py_eq_str (VStr "twitter") "youtube") with false.
  change (py_eq_str (VStr "twitter") "twitter") with true. cbv iota.
  f_equal. unfold embed_figure, twitter_tweet, shown_caption. same_text.
Qed.

Lemma video_is_no_image (m : string) :
  startswith m "video" = true -> startswith m "image" = false.
Proof.
  unfold startswith. destruct m as [|c m]; [discriminate |].
  cbn [String.prefix]. destruct (ascii_dec "v"%char c) as [<- |]; [| discriminate].
  reflexivity.
Qed.

(** X10: a media block with a str caption, a mimetype that starts with
    [video] and a urls mapping renders a [video] element with controls whose
    source is the full URL, empty when there is none. *)
Theorem X10_media_video (self : t) (d file u : dict) (c m : string) (sanitize : bool) :
  data self = VDict d ->
  d !! "caption" = Some (VStr c) ->
  d !! "file" = Some (VDict file) ->
  file !! "mimetype" = Some (VStr m) ->
  startswith m "video" = true ->
  file !! "urls" = Some (VDict u) ->
  MediaBlock.html self sanitize =
    Ok (tpl "<div class='"
        +:+ media_classes (default (VBool false) (d !! "stretched"))
                          (default (VBool false) (d !! "withBorder"))
                          (default (VBool false) (d !! "withBackground"))
        +:+ tpl "'><figure>  <div class='media-tool__media'>     <video class='media-tool__media-picture' src='"
        +:+ py_str (default (VStr "") (u !! "full"))
        +:+ tpl "' controls=''></video>  </div><figcaption class='media-tool__caption' data-placeholder='"
        +:+ cleaned (shown_caption sanitize c) +:+ tpl "'>"
        +:+ shown_caption sanitize c +:+ "</figcaption></figure></div>").
Proof.
  intros Hd Hc Hf Hm Hvideo Hu.
  rewrite (media_html self d file c m (VDict u) sanitize Hd Hc Hf Hm)
    by (rewrite Hu; reflexivity).
  rewrite (video_is_no_image m Hvideo), Hvideo.
  unfold MediaBlock.video_parts.
  cbn [py_get mbind result_bind fmap result_fmap]. f_equal.
  unfold media_figure. rewrite join_cons, join_nil, append_nil_r. same_text.
Qed.

(** X11: a media block with a str caption whose mimetype starts with neither
    [image] nor [video] renders the figure with no media element; its urls
    are not read, so they may be missing. *)
Theorem X11_media_other_mimetype (self : t) (d file : dict) (c m : string)
    (sanitize : bool) :
  data self = VDict d ->
  d !! "caption" = Some (VStr c) ->
  d !! "file" = Some (VDict file) ->
  file !! "mimetype" = Some (VStr m) ->
  startswith m "image" = false ->
  startswith m "video" = false ->
  MediaBlock.html self sanitize =
    Ok (tpl "<div class='"
        +:+ media_classes (default (VBool false) (d !! "stretched"))
                          (default (VBool false) (d !! "withBorder"))
                          (default (VBool false) (d !! "withBackground"))
        +:+ tpl "'><figure>  <div class='media-tool__media'>  </div><figcaption class='media-tool__caption' data-placeholder='"
        +:+ cleaned (shown_caption sanitize c) +:+ tpl "'>"
        +:+ shown_caption sanitize c +:+ "</figcaption></figure></div>").
Proof.
  intros Hd Hc Hf Hm Himage Hvideo.
  rewrite (media_html self d file c m (default VNone (file !! "urls")) sanitize
             Hd Hc Hf Hm eq_refl).
  rewrite Himage, Hvideo. reflexivity.
Qed.

(** X12: an image or a video whose urls are missing or are no mapping raises
    [AttributeError]. *)
Theorem X12_media_needs_urls (self : t) (d file : dict) (c m : string) (urls : value)
    (sanitize : bool) :
  data self = VDict d ->
  d !! "caption" = Some (VStr c) ->
  d !! "file" = Some (VDict file) ->
  file !! "mimetype" = Some (VStr m) ->
  startswith m "image" = true \/ startswith m "video" = true ->
  default VNone (file !! "urls") = urls ->
  (forall u, urls <> VDict u) ->
  MediaBlock.html self sanitize = Raise AttributeError.
Proof.
  intros Hd Hc Hf Hm Hkind Hu Hn.
  assert (Hget : forall k dflt, py_get urls k dflt = Raise AttributeError).
  { intros k dflt. destruct urls; try reflexivity. now destruct (Hn m0). }
  rewrite (media_html self d file c m urls sanitize Hd Hc Hf Hm Hu).
  destruct Hkind as [Himage | Hvideo].
  - rewrite Himage. unfold MediaBlock.image_parts.
    destruct (contains "image/svg" m); cbn [negb]; rewrite !Hget; reflexivity.
  - rewrite (video_is_no_image m Hvideo), Hvideo. unfold MediaBlock.video_parts.
    rewrite Hget. reflexivity.
Qed.

(** X13: the [srcset] of an image that is no SVG writes each of the normal,
    medium and small URLs as [str()] gives it, so a URL that is missing from
    the urls mapping is written [None]. *)
Theorem X13_srcset_of_missing_urls (self : t) (d file u : dict) (c m : string)
    (sanitize : bool) :
  data self = VDict d ->
  d !! "caption" = Some (VStr c) ->
  d !! "file" = Some (VDict file) ->
  file !! "mimetype" = Some (VStr m) ->
  startswith m "image" = true ->
  contains "image/svg" m = false ->
  file !! "urls" = Some (VDict u) ->
  u !! "normal" = None ->
  u !! "medium" = None ->
  u !! "small" = None ->
  MediaBlock.html self sanitize =
    Ok (tpl "<div class='"
        +:+ media_classes (default (VBool false) (d !! "stretched"))
                          (default (VBool false) (d !! "withBorder"))
                          (default (VBool false) (d !! "withBackground"))
        +:+ tpl "'><figure>  <div class='media-tool__media'>     <img class='media-tool__media-picture' src='"
        +:+ py_str (default (VStr "") (u !! "full"))
        +:+ tpl "' srcset='None 1080w, None 720w, None 480w' alt='"
        +:+ cleaned (shown_caption sanitize c)
        +:+ tpl "' />  </div><figcaption class='media-tool__caption' data-placeholder='"
        +:+ cleaned (shown_caption sanitize c) +:+ tpl "'>"
        +:+ shown_caption sanitize c +:+ "</figcaption></figure></div>").
Proof.
  intros Hd Hc Hf Hm Himage Hsvg Hu Hn Hme Hs.
  rewrite (media_html_image self d file u c m sanitize Hd Hc Hf Hm Himage Hu).
  rewrite Hsvg, Hn, Hme, Hs. f_equal.
  unfold media_figure, media_img, media_srcset. cbn [default from_option Datatypes.id py_str].
  same_text.
Qed.
End MoreBlocks.

(** ** Paragraph tunes, header levels, list items, captions *)

Section MoreErrors.
Context `{PyRuntime}.

(** X14: the alignment of a paragraph is the value that its [AlignmentTune]
    binds to [alignment], written into the [style] attribute as [str()] gives
    it and never sanitized, whatever the flag. *)
Theorem X14_paragraph_alignment (self : t) (tn tune d : dict) (alignment : value)
    (text : string) (sanitize : bool) :
  tunes self = VDict tn ->
  tn !! "AlignmentTune" = Some (VDict tune) ->
  tune !! "alignment" = Some alignment ->
  data self = VDict d ->
  d !! "text" = Some (VStr text) ->
  ParagraphBlock.html self sanitize =
    Ok (tpl "<p style='text-align: " +:+ py_str alignment
        +:+ tpl "' class='cdx-block ce-paragraph'>" +:+ sanitized sanitize text +:+ "</p>").
Proof.
  intros Htn Htune Hal Hd Ht. unfold ParagraphBlock.html, ParagraphBlock.text.
  py_run. rewrite sanitize_if_str. py_run. reflexivity.
Qed.

(** X15: a paragraph whose [tunes] are present and are no mapping raises
    [AttributeError]; one whose [AlignmentTune] is bound to a value that is no
    mapping raises [TypeError]. *)
Theorem X15_paragraph_tunes_of_the_wrong_shape (self : t) (sanitize : bool) :
  (forall v, tunes self = v -> (forall m, v <> VDict m) ->
     ParagraphBlock.html self sanitize = Raise AttributeError)
  /\ (forall tn v, tunes self = VDict tn -> tn !! "AlignmentTune" = Some v ->
        (forall m, v <> VDict m) ->
        ParagraphBlock.html self sanitize = Raise TypeError).
Proof.
  split.
  - intros v Hv Hn. unfold ParagraphBlock.html. rewrite Hv.
    destruct v; try reflexivity. now destruct (Hn m).
  - intros tn v Htn Hv Hn. unfold ParagraphBlock.html. py_run.
    destruct v; try reflexivity. now destruct (Hn m).
Qed.

(** X16: the level check of a header takes a boolean for the integer it is in
    Python: the level [true] passes as 1 and is written [True] in both tags,
    the level [false] raises the parse error. *)
Theorem X16_header_level_boolean (self : t) (d : dict) (sanitize : bool) :
  data self = VDict d ->
  (forall text,
      d !! "level" = Some (VBool true) ->
      d !! "text" = Some (VStr text) ->
      HeaderBlock.html self sanitize =
        Ok (tpl "<hTrue class='cdx-block ce-header'>" +:+ sanitized sanitize text
            +:+ "</hTrue>"))
  /\ (d !! "level" = Some (VBool false) ->
      HeaderBlock.html self sanitize =
        Raise (EditorJsParseError "`False` is not a valid header level.")).
Proof.
  intros Hd. split.
  - intros text Hl Ht. unfold HeaderBlock.html, HeaderBlock.level, HeaderBlock.text.
    py_run. cbn [as_int]. change (HeaderBlock.VALID_HEADER_LEVEL_RANGE 1) with true.
    py_run. rewrite sanitize_if_str. py_run. reflexivity.
  - intros Hl. unfold HeaderBlock.html, HeaderBlock.level. py_run. reflexivity.
Qed.

Lemma list_items_not_str (pre : list string) (x : value) (post : list value) :
  (forall s, x <> VStr s) ->
  mapM (fun item => item ← sanitize_if true item;
                    Ok ("<li>" +:+ py_str item +:+ "</li>"))
       (app (VStr <$> pre) (x :: post))
  = Raise TypeError.
Proof.
  intros Hx. induction pre as [|p pre IH].
  - change (app (VStr <$> []) (x :: post)) with (x :: post). cbn [mapM].
    rewrite (sanitize_if_on_not_str x Hx). reflexivity.
  - rewrite fmap_cons. change (app (VStr p :: (VStr <$> pre)) (x :: post))
      with (VStr p :: app (VStr <$> pre) (x :: post)).
    cbn [mapM]. rewrite sanitize_if_str, IH. reflexivity.
Qed.

(** The list comprehension is all that is left of [ListBlock.html] once the
    style is valid and the items are a list. *)
Lemma list_html_items (self : t) (d : dict) (style : string) (items : list value)
    (sanitize : bool) :
  data self = VDict d ->
  d !! "style" = Some (VStr style) ->
  style = "ordered" \/ style = "unordered" ->
  d !! "items" = Some (VList items) ->
  ListBlock.html self sanitize =
    (_items ← mapM (fun item => item ← sanitize_if sanitize item;
                                Ok ("<li>" +:+ py_str item +:+ "</li>")) items;
     Ok (list_element (if String.eqb style "unordered" then "ul" else "ol") style _items)).
Proof.
  intros Hd Hs Hv Hi. unfold ListBlock.html, ListBlock.style, ListBlock.items. py_run.
  destruct Hv as [-> | ->]; reflexivity.
Qed.

(** X17: a list of a valid style whose [items] cannot be iterated (null, a
    boolean, a number) raises [TypeError]; so does, with the sanitize flag
    on, a list one of whose items is no str. *)
Theorem X17_list_items_of_the_wrong_shape (self : t) (d : dict) (style : string) :
  data self = VDict d ->
  d !! "style" = Some (VStr style) ->
  style = "ordered" \/ style = "unordered" ->
  (forall v sanitize,
      d !! "items" = Some v ->
      (forall l, v <> VList l) -> (forall s, v <> VStr s) -> (forall m, v <> VDict m) ->
      ListBlock.html self sanitize = Raise TypeError)
  /\ (forall pre x post,
        d !! "items" = Some (VList (app (VStr <$> pre) (x :: post))) ->
        (forall s, x <> VStr s) ->
        ListBlock.html self true = Raise TypeError).
Proof.
  intros Hd Hs Hv. split.
  - intros v sanitize Hi Hl Hstr Hm.
    unfold ListBlock.html, ListBlock.style, ListBlock.items. py_run.
    destruct Hv as [-> | ->];
      cbn [ListBlock.VALID_STYLES existsb py_eq_str String.eqb Ascii.eqb Bool.eqb
             orb negb];
      (destruct v; try reflexivity;
       [now destruct (Hstr s) | now destruct (Hl l) | now destruct (Hm m)]).
  - intros pre x post Hi Hx.
    rewrite (list_html_items self d style _ true Hd Hs Hv Hi).
    rewrite (list_items_not_str pre x post Hx). reflexivity.
Qed.

(** X18: a quote, embed or media block whose caption is missing or is no str
    raises [AttributeError] with the sanitize flag off and [TypeError] with
    the flag on. *)
Theorem X18_caption_must_be_a_str (self : t) (d : dict) (c : value) (sanitize : bool) :
  data self = VDict d ->
  default VNone (d !! "caption") = c ->
  (forall s, c <> VStr s) ->
  QuoteBlock.html self sanitize = Raise (if sanitize then TypeError else AttributeError)
  /\ EmbedBlock.html self sanitize = Raise (if sanitize then TypeError else AttributeError)
  /\ (forall file,
        default (VDict ∅) (d !! "file") = VDict file ->
        MediaBlock.html self sanitize
        = Raise (if sanitize then TypeError else AttributeError)).
Proof.
  intros Hd Hc Hn. repeat apply conj.
  - exact (quote_html_caption_not_str self d c sanitize Hd Hc Hn).
  - exact (embed_html_caption_not_str self d c sanitize Hd Hc Hn).
  - intros file Hf. exact (media_html_caption_not_str self d file c sanitize Hd Hf Hc Hn).
Qed.

(** X19: a media block with a str caption whose mimetype is missing or is no
    str raises [AttributeError], whatever the flag. *)
Theorem X19_mimetype_must_be_a_str (self : t) (d file : dict) (c : string) (m : value)
    (sanitize : bool) :
  data self = VDict d ->
  d !! "caption" = Some (VStr c) ->
  default (VDict ∅) (d !! "file") = VDict file ->
  default VNone (file !! "mimetype") = m ->
  (forall s, m <> VStr s) ->
  MediaBlock.html self sanitize = Raise AttributeError.
Proof. exact (media_html_mimetype_not_str self d file c m sanitize). Qed.

(** X20: a quote with a str caption and a str text: the class
    [ce-quote-with-caption] is there when the caption as given is not empty,
    the [cite] when the caption as shown (sanitized if the flag is on, then
    trimmed) is not empty; inside the [cite] the shown caption passes the
    sanitizer once more. *)
Theorem X20_quote_class_and_cite (self : t) (d : dict) (c text : string) (sanitize : bool) :
  data self = VDict d ->
  d !! "caption" = Some (VStr c) ->
  d !! "text" = Some (VStr text) ->
  QuoteBlock.html self sanitize =
    Ok (tpl "<div class='cdx-block ce-quote ce-quote-with-align-"
        +:+ py_str (default VNone (d !! "alignment"))
        +:+ (if String.eqb c "" then "" else " ce-quote-with-caption")
        +:+ tpl "'>      <blockquote class='ce-quote__blockquote'>"
        +:+ sanitized sanitize text
        +:+ (if String.eqb (strip_br (sanitized sanitize c)) "" then ""
             else tpl "<cite class='ce-quote__caption'>"
                  +:+ sanitized sanitize (strip_br (sanitized sanitize c)) +:+ "</cite>")
        +:+ "      </blockquote></div>").
Proof.
  intros Hd Hc Ht.
  rewrite (quote_html self d c (VStr (sanitized sanitize text)) sanitize Hd Hc)
    by (rewrite Ht; apply sanitize_if_str).
  unfold quote_element, quote_cite, shown_caption. cbn [truthy py_str].
  destruct (String.eqb c ""); destruct (String.eqb (strip_br (sanitized sanitize c)) "");
    reflexivity.
Qed.

(** X21: a block record with neither [data] nor [tunes] is rendered on empty
    data: the code, raw, telegram, header, paragraph and warning blocks
    render (the last three only with the sanitize flag off, the missing texts
    standing as [None] or dropped), the list raises the parse error, and the
    quote, embed and media blocks raise for want of a caption. *)
Theorem X21_record_without_data (self : t) (sanitize : bool) :
  _data self !! "data" = None ->
  _data self !! "tunes" = None ->
  CodeBlock.html self sanitize = Ok (tpl "<div class='cdx-block ce-code'><pre>None</pre></div>")
  /\ RawBlock.html self sanitize = Ok (tpl "<div class='cdx-block ce-raw'></div>")
  /\ TelegramPost.html self sanitize
     = Ok (tpl "<div class='cdx-block telegram-post'><script async src='https://telegram.org/js/telegram-widget.js?22' data-telegram-post='/' data-width='100%'></script></div>")
  /\ HeaderBlock.html self sanitize
     = (if sanitize then Raise TypeError
        else Ok (tpl "<h1 class='cdx-block ce-header'>None</h1>"))
  /\ ParagraphBlock.html self sanitize
     = (if sanitize then Raise TypeError
        else Ok (tpl "<p style='text-align: left' class='cdx-block ce-paragraph'>None</p>"))
  /\ WarningBlock.html self sanitize
     = (if sanitize then Raise TypeError
        else Ok (tpl "<div class='cdx-block ce-warning'>  <blockquote class='ce-warning__blockquote'>  </blockquote></div>"))
  /\ ListBlock.html self sanitize
     = Raise (EditorJsParseError "`None` is not a valid list style.")
  /\ QuoteBlock.html self sanitize = Raise (if sanitize then TypeError else AttributeError)
  /\ EmbedBlock.html self sanitize = Raise (if sanitize then TypeError else AttributeError)
  /\ MediaBlock.html self sanitize = Raise (if sanitize then TypeError else AttributeError).
Proof.
  intros Hdata Htunes.
  assert (Hd : data self = VDict ∅) by (unfold data; rewrite Hdata; reflexivity).
  assert (Htn : tunes self = VDict ∅) by (unfold tunes; rewrite Htunes; reflexivity).
  repeat apply conj.
  - unfold CodeBlock.html, CodeBlock.text. rewrite Hd. reflexivity.
  - unfold RawBlock.html. rewrite Hd. reflexivity.
  - unfold TelegramPost.html, TelegramPost.channelName, TelegramPost.messageId.
    rewrite Hd. reflexivity.
  - unfold HeaderBlock.html, HeaderBlock.level, HeaderBlock.text. rewrite Hd.
    destruct sanitize; reflexivity.
  - unfold ParagraphBlock.html, ParagraphBlock.text. rewrite Hd, Htn.
    destruct sanitize; reflexivity.
  - unfold WarningBlock.html, WarningBlock.title, WarningBlock.message. rewrite Hd.
    destruct sanitize; reflexivity.
  - unfold ListBlock.html, ListBlock.style. rewrite Hd. reflexivity.
  - unfold QuoteBlock.html, QuoteBlock.caption. rewrite Hd. destruct sanitize; reflexivity.
  - unfold EmbedBlock.html, EmbedBlock.caption. rewrite Hd. destruct sanitize; reflexivity.
  - unfold MediaBlock.html, MediaBlock.file_url, MediaBlock.caption. rewrite Hd.
    destruct sanitize; reflexivity.
Qed.
End MoreErrors.

(** * The further properties at example blocks *)

Lemma X1_captions :
  strip_br "cap<br>" = "cap"
  /\ strip_br "cap<br><br>" = "cap<br>"
  /\ strip_br "cap" = "cap".
Proof.
  destruct X1_strip_br_one_trailing_break as (Hone & Htwo & Hkeep & _).
  repeat apply conj.
  - exact (Hone "cap").
  - exact (Htwo "cap").
  - apply Hkeep. intros a Ha. apply (f_equal String.length) in Ha.
    rewrite length_append in Ha. cbn in Ha. lia.
Defined.

Lemma X2_caption_blocks :
  @EmbedBlock.html text_runtime (block "embed" vimeo_data) false
  = Ok (tpl "<div class='cdx-block embed-tool embed-tool-vimeo'><figure><div class='embed-tool__embed'></div><figcaption class='embed-tool__caption'>cap</figcaption></figure></div>")
  /\ @QuoteBlock.html text_runtime (block "quote" quote_data) false
     = Ok (tpl "<div class='cdx-block ce-quote ce-quote-with-align-left ce-quote-with-caption'>      <blockquote class='ce-quote__blockquote'>Hi<br><cite class='ce-quote__caption'>cap</cite>      </blockquote></div>")
  /\ @MediaBlock.html text_runtime (block "media" svg_data) false
     = Ok (tpl "<div class='cdx-block media-tool media-tool--filled'><figure>  <div class='media-tool__media'>     <img class='media-tool__media-picture' src='f' alt='cap' />  </div><figcaption class='media-tool__caption' data-placeholder='cap'>cap</figcaption></figure></div>").
Proof.
  destruct (@X2_trailing_break_of_a_caption_is_not_shown text_runtime)
    as (Hembed & Hquote & Hmedia).
  repeat apply conj.
  - rewrite (Hembed _ vimeo_data "cap" (VStr "vimeo")) by concrete. reflexivity.
  - rewrite (Hquote _ quote_data "cap") by concrete. reflexivity.
  - rewrite (Hmedia _ svg_data svg_file urls4 "cap" "image/svg+xml") by concrete.
    reflexivity.
Defined.


Lemma X4_null_data :
  @CodeBlock.html text_runtime null_data_record true = Raise AttributeError
  /\ @TelegramPost.html text_runtime null_data_record false = Raise AttributeError
  /\ @ParagraphBlock.html text_runtime null_data_record false = Raise AttributeError.
Proof.
  destruct (@X4_data_that_is_no_mapping text_runtime null_data_record VNone true)
    as (Hcode & _); [concrete | discriminate |].
  destruct (@X4_data_that_is_no_mapping text_runtime null_data_record VNone false)
    as (_ & _ & _ & _ & _ & _ & _ & _ & Htelegram & Hparagraph & _);
    [concrete | discriminate |].
  repeat apply conj.
  - exact Hcode.
  - exact Htelegram.
  - apply (Hparagraph ∅); concrete.
Defined.

Lemma X6_raw_script :
  @RawBlock.html text_runtime (block "raw" raw_data) true
  = Ok (tpl "<div class='cdx-block ce-raw'><script>1</script></div>")
  /\ @RawBlock.html gone_runtime (block "raw" raw_data) true
     = @RawBlock.html text_runtime (block "raw" raw_data) false.
Proof.
  destruct (X6_blocks_that_are_never_sanitized text_runtime (fun _ _ _ => "gone")
              (block "raw" raw_data) true false) as (_ & Hraw & _ & _ & Hhtml).
  split.
  - apply (Hhtml raw_data "<script>1</script>"); concrete.
  - exact Hraw.
Defined.

Lemma X7_warning_without_message :
  @WarningBlock.html text_runtime (block "warning" warning_data) true
  = Ok (tpl "<div class='cdx-block ce-warning'>  <blockquote class='ce-warning__blockquote'>    <b class='ce-warning__title'>ttl</b>  </blockquote></div>").
Proof.
  rewrite (@X7_warning_elements text_runtime _ warning_data "ttl" "") by concrete.
  reflexivity.
Defined.

Lemma X8_blocks_without_text :
  @HeaderBlock.html text_runtime (block "header" h3_no_text_data) true = Raise TypeError
  /\ @ParagraphBlock.html text_runtime (block "paragraph" ∅) true = Raise TypeError
  /\ @QuoteBlock.html text_runtime (block "quote" quote_no_text_data) true = Raise TypeError
  /\ @WarningBlock.html text_runtime (block "warning" ∅) true = Raise TypeError.
Proof.
  destruct (@X8_sanitizing_needs_str_text text_runtime (block "header" h3_no_text_data)
              h3_no_text_data VNone) as (Hheader & _); [concrete | discriminate |].
  destruct (@X8_sanitizing_needs_str_text text_runtime (block "paragraph" ∅) ∅ VNone)
    as (_ & Hparagraph & _); [concrete | discriminate |].
  destruct (@X8_sanitizing_needs_str_text text_runtime (block "quote" quote_no_text_data)
              quote_no_text_data VNone) as (_ & _ & Hquote & _); [concrete | discriminate |].
  destruct (@X8_sanitizing_needs_str_text text_runtime (block "warning" ∅) ∅ VNone)
    as (_ & _ & _ & Hwarning & _); [concrete | discriminate |].
  repeat apply conj.
  - apply (Hheader 3); concrete.
  - apply (Hparagraph ∅); concrete.
  - apply (Hquote "cap"); concrete.
  - apply Hwarning; concrete.
Defined.

Lemma X9_tweet :
  @EmbedBlock.html text_runtime (block "embed" twitter_data) true
  = Ok (tpl "<div class='cdx-block embed-tool embed-tool-twitter'><figure><div class='embed-tool__embed'><blockquote class='twitter-tweet'><blockquote class='twitter-tweet'><a href='https://twitter.com/a/status/1'></a></blockquote><script async src='https://platform.twitter.com/widgets.js' charset='utf-8'></script></div><figcaption class='embed-tool__caption'>cap</figcaption></figure></div>").
Proof.
  rewrite (@X9_embed_twitter text_runtime _ twitter_data "cap<br>") by concrete.
  reflexivity.
Defined.

Lemma X10_video :
  @MediaBlock.html text_runtime (block "media" video_data) true
  = Ok (tpl "<div class='cdx-block media-tool media-tool--filled'><figure>  <div class='media-tool__media'>     <video class='media-tool__media-picture' src='f' controls=''></video>  </div><figcaption class='media-tool__caption' data-placeholder='cap'>cap</figcaption></figure></div>").
Proof.
  rewrite (@X10_media_video text_runtime _ video_data video_file urls4 "cap<br>" "video/mp4")
    by concrete.
  reflexivity.
Defined.

Lemma X11_pdf_without_urls :
  @MediaBlock.html text_runtime (block "media" pdf_data) true
  = Ok (tpl "<div class='cdx-block media-tool media-tool--filled'><figure>  <div class='media-tool__media'>  </div><figcaption class='media-tool__caption' data-placeholder='cap'>cap</figcaption></figure></div>").
Proof.
  rewrite (@X11_media_other_mimetype text_runtime _ pdf_data pdf_file "cap<br>"
             "application/pdf") by concrete.
  reflexivity.
Defined.

Lemma X12_png_without_urls :
  @MediaBlock.html text_runtime (block "media" png_no_urls_data) true = Raise AttributeError.
Proof.
  apply (@X12_media_needs_urls text_runtime _ png_no_urls_data png_no_urls_file "cap<br>"
           "image/png" VNone); try concrete.
Defined.

Lemma X13_png_with_a_full_url_only :
  @MediaBlock.html text_runtime (block "media" png_full_only_data) true
  = Ok (tpl "<div class='cdx-block media-tool media-tool--filled'><figure>  <div class='media-tool__media'>     <img class='media-tool__media-picture' src='f' srcset='None 1080w, None 720w, None 480w' alt='cap' />  </div><figcaption class='media-tool__caption' data-placeholder='cap'>cap</figcaption></figure></div>").
Proof.
  rewrite (@X13_srcset_of_missing_urls text_runtime _ png_full_only_data png_full_only_file
             {[ "full" := VStr "f" ]} "cap<br>" "image/png") by concrete.
  reflexivity.
Defined.

Lemma X14_centered_paragraph :
  @ParagraphBlock.html text_runtime (tuned_block "paragraph" paragraph_data center_tune) true
  = Ok (tpl "<p style='text-align: center' class='cdx-block ce-paragraph'>Hi</p>").
Proof.
  rewrite (@X14_paragraph_alignment text_runtime _ center_tune
             {[ "alignment" := VStr "center" ]} paragraph_data (VStr "center") "Hi")
    by concrete.
  reflexivity.
Defined.

Lemma X15_paragraph_with_a_str_tune :
  @ParagraphBlock.html text_runtime (tuned_block "paragraph" paragraph_data str_tune) true
  = Raise TypeError
  /\ @ParagraphBlock.html text_runtime
       {| _data := {[ "data" := VDict paragraph_data; "tunes" := VNone ]} |} true
     = Raise AttributeError.
Proof.
  split.
  - apply (proj2 (@X15_paragraph_tunes_of_the_wrong_shape text_runtime _ true)
             str_tune (VStr "center")); try concrete.
  - apply (proj1 (@X15_paragraph_tunes_of_the_wrong_shape text_runtime _ true) VNone);
      try concrete.
Defined.

Lemma X16_headers_of_boolean_level :
  @HeaderBlock.html text_runtime (block "header" htrue_data) true
  = Ok (tpl "<hTrue class='cdx-block ce-header'>Hi</hTrue>")
  /\ @HeaderBlock.html text_runtime (block "header" hfalse_data) true
     = Raise (EditorJsParseError "`False` is not a valid header level.").
Proof.
  split.
  - rewrite (proj1 (@X16_header_level_boolean text_runtime (block "header" htrue_data) htrue_data true eq_refl) "Hi")
      by concrete.
    reflexivity.
  - apply (proj2 (@X16_header_level_boolean text_runtime (block "header" hfalse_data) hfalse_data true eq_refl)).
    concrete.
Defined.

Lemma X17_lists_of_the_wrong_shape :
  @ListBlock.html text_runtime (block "list" null_items_data) false = Raise TypeError
  /\ @ListBlock.html text_runtime (block "list" mixed_items_data) true = Raise TypeError.
Proof.
  split.
  - apply (proj1 (@X17_list_items_of_the_wrong_shape text_runtime
                    (block "list" null_items_data) null_items_data
                    "ordered" eq_refl eq_refl (or_introl eq_refl)) VNone);
      try concrete.
  - apply (proj2 (@X17_list_items_of_the_wrong_shape text_runtime
                    (block "list" mixed_items_data) mixed_items_data
                    "unordered" eq_refl eq_refl (or_intror eq_refl))
             ["one"] (VInt 2) []); try concrete.
Defined.

Lemma X18_blocks_without_caption :
  @QuoteBlock.html text_runtime (block "quote" quote_no_caption_data) true = Raise TypeError
  /\ @EmbedBlock.html text_runtime (block "embed" youtube_no_caption_data) false
     = Raise AttributeError
  /\ @MediaBlock.html text_runtime (block "media" png_no_caption_data) false
     = Raise AttributeError.
Proof.
  repeat apply conj.
  - apply (@X18_caption_must_be_a_str text_runtime _ quote_no_caption_data VNone true);
      try concrete.
  - apply (@X18_caption_must_be_a_str text_runtime _ youtube_no_caption_data VNone false);
      try concrete.
  - refine (proj2 (proj2 (@X18_caption_must_be_a_str text_runtime _ png_no_caption_data
                            VNone false _ _ _)) png_file _); try concrete.
Defined.

Lemma X19_media_without_mimetype :
  @MediaBlock.html text_runtime (block "media" no_mimetype_data) true = Raise AttributeError.
Proof.
  apply (@X19_mimetype_must_be_a_str text_runtime _ no_mimetype_data no_mimetype_file
           "cap" VNone); try concrete.
Defined.

Lemma X20_quote_with_a_break_for_caption :
  @QuoteBlock.html text_runtime (block "quote" quote_br_caption_data) false
  = Ok (tpl "<div class='cdx-block ce-quote ce-quote-with-align-left ce-quote-with-caption'>      <blockquote class='ce-quote__blockquote'>Hi      </blockquote></div>").
Proof.
  rewrite (@X20_quote_class_and_cite text_runtime _ quote_br_caption_data "<br>" "Hi")
    by concrete.
  reflexivity.
Defined.

Lemma X21_empty_record :
  @HeaderBlock.html text_runtime empty_record false
  = Ok (tpl "<h1 class='cdx-block ce-header'>None</h1>")
  /\ @ListBlock.html text_runtime empty_record false
     = Raise (EditorJsParseError "`None` is not a valid list style.")
  /\ @MediaBlock.html text_runtime empty_record true = Raise TypeError.
Proof.
  destruct (@X21_record_without_data text_runtime empty_record false eq_refl eq_refl)
    as (_ & _ & _ & Hheader & _ & _ & Hlist & _).
  destruct (@X21_record_without_data text_runtime empty_record true eq_refl eq_refl)
    as (_ & _ & _ & _ & _ & _ & _ & _ & _ & Hmedia).
  repeat apply conj; [exact Hheader | exact Hlist | exact Hmedia].
Defined.

(** * What the blocks read *)

Section Frames.
Context `{PyRuntime}.

Lemma media_classes_flags (stretched with_border with_background : value) :
  media_classes stretched with_border with_background =
    "cdx-block media-tool media-tool--filled"
    +:+ (if truthy stretched then " media-tool--stretched" else "")
    +:+ (if truthy with_border then " media-tool--withBorder" else "")
    +:+ (if truthy with_background then " media-tool--withBackground" else "").
Proof.
  unfold media_classes, MediaBlock.modifier.
  destruct (truthy stretched), (truthy with_border), (truthy with_background);
    reflexivity.
Qed.

(** X22: whenever a media block renders, its outcome is the figure around
    some media element, and the [class] of its [div] is the three fixed
    classes followed by one class per flag that is truthy (true, a number
    other than zero, a text that is not empty), in the order stretched,
    withBorder, withBackground. *)
Theorem X22_media_classes_follow_the_flags (self : t) (d file : dict) (c m out : string)
    (sanitize : bool) :
  data self = VDict d ->
  d !! "caption" = Some (VStr c) ->
  d !! "file" = Some (VDict file) ->
  file !! "mimetype" = Some (VStr m) ->
  MediaBlock.html self sanitize = Ok out ->
  exists media,
    out =
      tpl "<div class='cdx-block media-tool media-tool--filled"
      +:+ (if truthy (default (VBool false) (d !! "stretched"))
           then " media-tool--stretched" else "")
      +:+ (if truthy (default (VBool false) (d !! "withBorder"))
           then " media-tool--withBorder" else "")
      +:+ (if truthy (default (VBool false) (d !! "withBackground"))
           then " media-tool--withBackground" else "")
      +:+ tpl "'><figure>  <div class='media-tool__media'>" +:+ media
      +:+ tpl "  </div><figcaption class='media-tool__caption' data-placeholder='"
      +:+ cleaned (shown_caption sanitize c) +:+ tpl "'>"
      +:+ shown_caption sanitize c +:+ "</figcaption></figure></div>".
Proof.
  intros Hd Hc Hf Hm Hout.
  rewrite (media_html self d file c m (default VNone (file !! "urls")) sanitize
             Hd Hc Hf Hm eq_refl) in Hout.
  match type of Hout with
  | (?computed ≫= _) = _ => destruct computed as [media | e]; [| discriminate Hout]
  end.
  cbn [mbind result_bind] in Hout. injection Hout as <-. exists media.
  unfold media_figure. rewrite media_classes_flags. same_text.
Qed.

(** X23: the tag of a header of level 1 to 6 is [h1] to [h6]. *)
Theorem X23_header_tags (self : t) (d : dict) (n : Z) (text : string) (sanitize : bool) :
  data self = VDict d ->
  default (VInt 1) (d !! "level") = VInt n ->
  1 ≤ n ≤ 6 ->
  d !! "text" = Some (VStr text) ->
  HeaderBlock.html self sanitize =
    Ok ("<" +:+ nth (Z.to_nat (n - 1)) ["h1"; "h2"; "h3"; "h4"; "h5"; "h6"] ""
        +:+ tpl " class='cdx-block ce-header'>" +:+ sanitized sanitize text
        +:+ "</" +:+ nth (Z.to_nat (n - 1)) ["h1"; "h2"; "h3"; "h4"; "h5"; "h6"] "" +:+ ">").
Proof.
  intros Hd Hl Hn Ht.
  rewrite (header_html self d n (VStr (sanitized sanitize text)) sanitize Hd Hl Hn)
    by (rewrite Ht; apply sanitize_if_str).
  assert (Hcases : n = 1 \/ n = 2 \/ n = 3 \/ n = 4 \/ n = 5 \/ n = 6) by lia.
  destruct Hcases as [-> | [-> | [-> | [-> | [-> | ->]]]]]; reflexivity.
Qed.

(** X24: a block is rendered from the [data] of its record, and a paragraph
    from [data] and [tunes]: two records with the same data (and tunes)
    render alike, whatever their [id] and their [type], which no [html]
    method reads. *)
Theorem X24_rendering_reads_data_and_tunes (self self' : t) (sanitize : bool) :
  data self = data self' ->
  CodeBlock.html self sanitize = CodeBlock.html self' sanitize
  /\ HeaderBlock.html self sanitize = HeaderBlock.html self' sanitize
  /\ WarningBlock.html self sanitize = WarningBlock.html self' sanitize
  /\ QuoteBlock.html self sanitize = QuoteBlock.html self' sanitize
  /\ ListBlock.html self sanitize = ListBlock.html self' sanitize
  /\ RawBlock.html self sanitize = RawBlock.html self' sanitize
  /\ EmbedBlock.html self sanitize = EmbedBlock.html self' sanitize
  /\ MediaBlock.html self sanitize = MediaBlock.html self' sanitize
  /\ TelegramPost.html self sanitize = TelegramPost.html self' sanitize
  /\ (tunes self = tunes self' ->
      ParagraphBlock.html self sanitize = ParagraphBlock.html self' sanitize).
Proof.
  intros Hd. repeat apply conj.
  - unfold CodeBlock.html, CodeBlock.text. now rewrite Hd.
  - unfold HeaderBlock.html, HeaderBlock.level, HeaderBlock.text. now rewrite Hd.
  - unfold WarningBlock.html, WarningBlock.title, WarningBlock.message. now rewrite Hd.
  - unfold QuoteBlock.html, QuoteBlock.caption, QuoteBlock.alignment, QuoteBlock.text.
    now rewrite Hd.
  - unfold ListBlock.html, ListBlock.style, ListBlock.items. now rewrite Hd.
  - unfold RawBlock.html. now rewrite Hd.
  - unfold EmbedBlock.html, EmbedBlock.caption, EmbedBlock.service, EmbedBlock.embed,
      EmbedBlock.source.
    now rewrite Hd.
  - unfold MediaBlock.html, MediaBlock.file_url, MediaBlock.caption, MediaBlock.stretched,
      MediaBlock.with_border, MediaBlock.with_background, MediaBlock.file_mimetype.
    now rewrite Hd.
  - unfold TelegramPost.html, TelegramPost.channelName, TelegramPost.messageId.
    now rewrite Hd.
  - intros Htn. unfold ParagraphBlock.html, ParagraphBlock.text. now rewrite Hd, Htn.
Qed.

(** X25: each block reads its own fields of the data and no other: two data
    mappings that agree on the fields of a block render alike.  The fields
    are [code]; [html]; [level] and [text]; [title] and [message]; [style]
    and [items]; [text], [alignment] and [caption]; [service], [source],
    [embed] and [caption]; [file], [caption] and the three flags. *)
Theorem X25_blocks_read_their_own_fields (self self' : t) (d d' : dict) (sanitize : bool) :
  data self = VDict d ->
  data self' = VDict d' ->
  (d !! "code" = d' !! "code" ->
   CodeBlock.html self sanitize = CodeBlock.html self' sanitize)
  /\ (d !! "html" = d' !! "html" ->
      RawBlock.html self sanitize = RawBlock.html self' sanitize)
  /\ (d !! "level" = d' !! "level" -> d !! "text" = d' !! "text" ->
      HeaderBlock.html self sanitize = HeaderBlock.html self' sanitize)
  /\ (d !! "title" = d' !! "title" -> d !! "message" = d' !! "message" ->
      WarningBlock.html self sanitize = WarningBlock.html self' sanitize)
  /\ (d !! "style" = d' !! "style" -> d !! "items" = d' !! "items" ->
      ListBlock.html self sanitize = ListBlock.html self' sanitize)
  /\ (d !! "text" = d' !! "text" -> d !! "alignment" = d' !! "alignment" ->
      d !! "caption" = d' !! "caption" ->
      QuoteBlock.html self sanitize = QuoteBlock.html self' sanitize)
  /\ (d !! "service" = d' !! "service" -> d !! "source" = d' !! "source" ->
      d !! "embed" = d' !! "embed" -> d !! "caption" = d' !! "caption" ->
      EmbedBlock.html self sanitize = EmbedBlock.html self' sanitize)
  /\ (d !! "file" = d' !! "file" -> d !! "caption" = d' !! "caption" ->
      d !! "stretched" = d' !! "stretched" -> d !! "withBorder" = d' !! "withBorder" ->
      d !! "withBackground" = d' !! "withBackground" ->
      MediaBlock.html self sanitize = MediaBlock.html self' sanitize).
Proof.
  intros Hd Hd'. repeat apply conj.
  - intros H1. unfold CodeBlock.html, CodeBlock.text. rewrite Hd, Hd'.
    cbn [py_get]. now rewrite H1.
  - intros H1. unfold RawBlock.html. rewrite Hd, Hd'. cbn [py_get]. now rewrite H1.
  - intros H1 H2. unfold HeaderBlock.html, HeaderBlock.level, HeaderBlock.text.
    rewrite Hd, Hd'. cbn [py_get]. now rewrite H1, H2.
  - intros H1 H2. unfold WarningBlock.html, WarningBlock.title, WarningBlock.message.
    rewrite Hd, Hd'. cbn [py_get]. now rewrite H1, H2.
  - intros H1 H2. unfold ListBlock.html, ListBlock.style, ListBlock.items.
    rewrite Hd, Hd'. cbn [py_get]. now rewrite H1, H2.
  - intros H1 H2 H3.
    unfold QuoteBlock.html, QuoteBlock.caption, QuoteBlock.alignment, QuoteBlock.text.
    rewrite Hd, Hd'. cbn [py_get]. now rewrite H1, H2, H3.
  - intros H1 H2 H3 H4.
    unfold EmbedBlock.html, EmbedBlock.caption, EmbedBlock.service, EmbedBlock.embed,
      EmbedBlock.source.
    rewrite Hd, Hd'. cbn [py_get]. now rewrite H1, H2, H3, H4.
  - intros H1 H2 H3 H4 H5.
    unfold MediaBlock.html, MediaBlock.file_url, MediaBlock.caption, MediaBlock.stretched,
      MediaBlock.with_border, MediaBlock.with_background, MediaBlock.file_mimetype.
    rewrite Hd, Hd'. cbn [py_get]. now rewrite H1, H2, H3, H4, H5.
Qed.
End Frames.

(** * Sanitizing while rendering, and before *)

Section SanitizeBefore.
Context `{PyRuntime}.

(** X26: rendering with the sanitize flag on is rendering, with the flag off,
    the block whose texts were sanitized beforehand: the text of a header
    and of a paragraph, the title and the message of a warning, the items of
    a list, the caption of an embed and of a media block.  (Not so for the
    quote, whose caption passes the sanitizer twice.) *)
Theorem X26_sanitize_on_is_sanitized_data (self self' : t) (d : dict) :
  data self = VDict d ->
  (forall text,
      d !! "text" = Some (VStr text) ->
      data self' = VDict (<["text" := VStr (sanitized true text)]> d) ->
      HeaderBlock.html self true = HeaderBlock.html self' false
      /\ (tunes self = tunes self' ->
          ParagraphBlock.html self true = ParagraphBlock.html self' false))
  /\ (forall title message,
        d !! "title" = Some (VStr title) ->
        d !! "message" = Some (VStr message) ->
        data self' = VDict (<["title" := VStr (sanitized true title)]>
                              (<["message" := VStr (sanitized true message)]> d)) ->
        WarningBlock.html self true = WarningBlock.html self' false)
  /\ (forall items,
        d !! "items" = Some (VList (VStr <$> items)) ->
        data self' = VDict (<["items" := VList (VStr <$> (sanitized true <$> items))]> d) ->
        ListBlock.html self true = ListBlock.html self' false)
  /\ (forall caption,
        d !! "caption" = Some (VStr caption) ->
        data self' = VDict (<["caption" := VStr (sanitized true caption)]> d) ->
        EmbedBlock.html self true = EmbedBlock.html self' false
        /\ MediaBlock.html self true = MediaBlock.html self' false).
Proof.
  intros Hd. repeat apply conj.
  - intros text Ht Hd'. split.
    + unfold HeaderBlock.html, HeaderBlock.level, HeaderBlock.text. rewrite Hd, Hd'.
      cbn [py_get]. rewrite lookup_insert_eq, lookup_insert_ne, Ht by discriminate.
      reflexivity.
    + intros Htn. unfold ParagraphBlock.html, ParagraphBlock.text. rewrite Hd, Hd', Htn.
      cbn [py_get]. rewrite lookup_insert_eq, Ht. reflexivity.
  - intros title message Ht Hm Hd'.
    unfold WarningBlock.html, WarningBlock.title, WarningBlock.message. rewrite Hd, Hd'.
    cbn [py_get]. rewrite lookup_insert_eq, lookup_insert_ne, lookup_insert_eq, Ht, Hm
      by discriminate.
    reflexivity.
  - intros items Hi Hd'.
    unfold ListBlock.html, ListBlock.style, ListBlock.items. rewrite Hd, Hd'.
    cbn [py_get]. rewrite lookup_insert_eq, lookup_insert_ne, Hi by discriminate.
    cbn [default from_option Datatypes.id mbind result_bind py_iter].
    rewrite !list_items_str, <- list_fmap_compose. reflexivity.
  - intros caption Hc Hd'. split.
    + unfold EmbedBlock.html, EmbedBlock.caption, EmbedBlock.service, EmbedBlock.embed,
        EmbedBlock.source.
      rewrite Hd, Hd'. cbn [py_get].
      rewrite lookup_insert_eq, !lookup_insert_ne, Hc by discriminate. reflexivity.
    + unfold MediaBlock.html, MediaBlock.file_url, MediaBlock.caption, MediaBlock.stretched,
        MediaBlock.with_border, MediaBlock.with_background, MediaBlock.file_mimetype.
      rewrite Hd, Hd'. cbn [py_get].
      rewrite lookup_insert_eq, !lookup_insert_ne, Hc by discriminate. reflexivity.
Qed.
End SanitizeBefore.

(** * These properties at example blocks *)

Lemma X22_stretched_file_with_border :
  exists media,
    tpl "<div class='cdx-block media-tool media-tool--filled media-tool--stretched media-tool--withBorder'><figure>  <div class='media-tool__media'>  </div><figcaption class='media-tool__caption' data-placeholder='cap'>cap</figcaption></figure></div>"
    = tpl "<div class='cdx-block media-tool media-tool--filled media-tool--stretched media-tool--withBorder'><figure>  <div class='media-tool__media'>"
      +:+ media
      +:+ tpl "  </div><figcaption class='media-tool__caption' data-placeholder='cap'>cap</figcaption></figure></div>".
Proof.
  destruct (@X22_media_classes_follow_the_flags text_runtime (block "media" flagged_pdf_data)
              flagged_pdf_data pdf_file "cap<br>" "application/pdf" _ true
              eq_refl eq_refl eq_refl eq_refl eq_refl) as (media & Hmedia).
  exists media. exact Hmedia.
Defined.

Lemma X23_header_of_level_3 :
  @HeaderBlock.html text_runtime (block "header" h3_data) true
  = Ok (tpl "<h3 class='cdx-block ce-header'>Hi</h3>").
Proof.
  rewrite (@X23_header_tags text_runtime _ h3_data 3 "Hi") by concrete. reflexivity.
Defined.

Lemma X24_header_in_a_record_of_another_type :
  @HeaderBlock.html text_runtime (block "paragraph" h3_data) true
  = @HeaderBlock.html text_runtime (block "header" h3_data) true.
Proof.
  apply (@X24_rendering_reads_data_and_tunes text_runtime
           (block "paragraph" h3_data) (block "header" h3_data) true).
  reflexivity.
Defined.

Lemma X25_code_beside_other_fields :
  @CodeBlock.html text_runtime (block "code" (<["language" := VStr "js"]> script_data)) true
  = @CodeBlock.html text_runtime (block "code" script_data) true.
Proof.
  apply (@X25_blocks_read_their_own_fields text_runtime
           (block "code" (<["language" := VStr "js"]> script_data))
           (block "code" script_data)
           (<["language" := VStr "js"]> script_data) script_data true);
    reflexivity.
Defined.

Lemma X26_header_sanitized_before :
  @HeaderBlock.html gone_runtime (block "header" h3_data) true
  = @HeaderBlock.html gone_runtime
      (block "header" {[ "level" := VInt 3; "text" := VStr "gone" ]}) false.
Proof.
  destruct (@X26_sanitize_on_is_sanitized_data gone_runtime (block "header" h3_data)
              (block "header" {[ "level" := VInt 3; "text" := VStr "gone" ]}) h3_data
              eq_refl) as (Htext & _).
  apply (Htext "Hi"); reflexivity.
Defined.
